(** * Authentication and session lifecycle of the Enrichment backend

    A shallow embedding of [AuthService] (backend/src/services/auth.ts):
    [register], [login], [refreshToken], [logout], [verifyToken],
    [generateTokens], [verifyMfaCode] and [parseTimeToSeconds], over the two
    tables [users] and [userSessions] of backend/src/models/schema.ts.

    Modelling conventions.
    - The two tables are lists of rows in insertion order; [select ... limit 1]
      returns the first matching row.  Column length limits and the unique
      indexes of the schema are enforced by the database engine and are not
      part of the model: a write is accepted as given.
    - [eq(column, value)] is the SQL comparison [column = value] that
      drizzle sends: equality for a value, and never true for [null]
      ([deleted_at = NULL] holds of no row, whatever the column).
    - bcryptjs, jsonwebtoken and the random sources are external: they are
      the fields of an environment [Env].  [bcrypt.hash(s, rounds)] draws a
      salt, so it is stateful: it consumes one unit of the world's entropy.
    - A token is a string to the service; the model keeps a well-formed
      token as the payload and the signature it carries and any other string
      as [Malformed], and [jwt.verify] checks the signature before the expiry.
    - An operation reads the clock once: [nowMs] is [Date.now()].  Calls to
      the logger are left out.
    - JavaScript numbers are doubles.  Those the service computes with are
      integers, NaN or infinite: [option Z], where [Some z] is a double that
      is the integer [z] and [None] is NaN or an infinity (both are [null] in
      a JSON payload and both make an invalid [Date]); a result is rounded
      to the nearest double.
    - A character of a string is a code unit below 256. *)

From Stdlib Require Import String Ascii List ZArith Lia Bool DecimalString.
Import ListNotations.
Local Open Scope string_scope.
Local Open Scope Z_scope.

(** ** Errors and results *)

(** The exceptions the service can see: [AppError] of utils/errors.ts
    ([isOperational] is true when the constructor is not given it), the
    two jsonwebtoken classes ([TokenExpiredError] is a subclass of
    [JsonWebTokenError]) and the [RangeError] of an invalid [Date]. *)
Inductive Exn : Type :=
| AppError (message : string) (statusCode : Z)
    (details : option (list (string * bool))) (isOperational : bool)
| JsonWebTokenError (message : string)
| TokenExpiredError (message : string)
| RangeError (message : string).

Definition instanceof_JsonWebTokenError (e : Exn) : bool :=
  match e with
  | JsonWebTokenError _ | TokenExpiredError _ => true
  | _ => false
  end.

Definition statusCode_of (e : Exn) : option Z :=
  match e with
  | AppError _ code _ _ => Some code
  | _ => None
  end.

Inductive result (A : Type) : Type :=
| Ok (a : A)
| Throw (e : Exn).
Arguments Ok {A} a.
Arguments Throw {A} e.

(** ** Rows, payloads and inputs *)

(** A row of [users]: the columns the service reads or writes (the others
    keep their defaults and play no part). *)
Module User.
Record t : Type := mk {
  id : string;
  username : string;
  email : string;
  passwordHash : string;
  displayName : option string;
  verified : bool;
  mfaEnabled : bool;
  createdAt : Z;
  deletedAt : option Z
}.
End User.

(** A user row without its [passwordHash]: [const { passwordHash: _, ...rest }]. *)
Module PublicUser.
Record t : Type := mk {
  id : string;
  username : string;
  email : string;
  displayName : option string;
  verified : bool;
  mfaEnabled : bool;
  createdAt : Z;
  deletedAt : option Z
}.
End PublicUser.

Definition userWithoutPassword (u : User.t) : PublicUser.t :=
  PublicUser.mk (User.id u) (User.username u) (User.email u) (User.displayName u)
    (User.verified u) (User.mfaEnabled u) (User.createdAt u) (User.deletedAt u).

(** A row of [userSessions]. *)
Module Session.
Record t : Type := mk {
  id : string;
  userId : string;
  tokenHash : string;
  refreshTokenHash : option string;
  deviceInfo : option string;
  ipAddress : option string;
  userAgent : option string;
  expiresAt : Z;
  createdAt : Z;
  lastUsedAt : Z
}.
End Session.

Module JWTPayload.
(** [email] and [username] are absent from a refresh payload; [exp] is
    [None] when the configured lifetime did not parse (NaN). *)
Record t : Type := mk {
  sub : string;
  email : option string;
  username : option string;
  iat : Z;
  exp : option Z;
  iss : string;
  aud : string
}.
End JWTPayload.

(** A presented token: either a well-formed compact JWT, seen as its payload
    and its signature, or any other string. *)
Inductive jwt : Type :=
| Jwt (payload : JWTPayload.t) (signature : string)
| Malformed (raw : string).

Module TokenPair.
Record t : Type := mk {
  accessToken : jwt;
  refreshToken : jwt;
  expiresIn : option Z
}.
End TokenPair.

Module LoginCredentials.
Record t : Type := mk {
  email : string;
  password : string;
  mfaCode : option string
}.
End LoginCredentials.

Module RegisterData.
Record t : Type := mk {
  username : string;
  email : string;
  password : string;
  displayName : option string;
  inviteCode : option string
}.
End RegisterData.

Module SessionInfo.
Record t : Type := mk {
  deviceInfo : option string;
  ipAddress : option string;
  userAgent : option string
}.
End SessionInfo.

(** ** Configuration and external libraries *)

(** [config.auth]: the schema of config/index.ts requires both secrets to
    have at least 32 characters, so neither is empty. *)
Module Config.
Record t : Type := mk {
  secret : string;
  refreshSecret : string;
  accessExpiresIn : string;
  refreshExpiresIn : string;
  issuer : string;
  audience : string;
  rounds : Z
}.
End Config.

(** What the service takes from outside.
    - [bcrypt_digest s rounds salt] is the digest [bcrypt.hash] returns once
      it has drawn [salt]; [bcrypt_compare s digest] is [bcrypt.compare].
    - [hmac secret payload] is the signature of a payload under a secret and
      [jwt_encode] the compact serialization (the string that gets hashed).
    - [gen_salt] and [gen_uuid] turn the world's entropy into a salt and into
      the [defaultRandom()] primary key of a new row. *)
Record Env : Type := mkEnv {
  config : Config.t;
  bcrypt_digest : string -> Z -> string -> string;
  bcrypt_compare : string -> string -> bool;
  hmac : string -> JWTPayload.t -> string;
  jwt_encode : JWTPayload.t -> string -> string;
  gen_salt : nat -> string;
  gen_uuid : nat -> string
}.

(** ** The world: both tables and the entropy consumed so far *)

Record World : Type := mkWorld {
  users : list User.t;
  userSessions : list Session.t;
  entropy : nat
}.

(** State and exceptions: a throw keeps the writes made before it. *)
Definition M (A : Type) : Type := World -> result A * World.

Definition ret {A} (a : A) : M A := fun w => (Ok a, w).
Definition throw {A} (e : Exn) : M A := fun w => (Throw e, w).
Definition bind {A B} (m : M A) (k : A -> M B) : M B :=
  fun w => match m w with
           | (Ok a, w') => k a w'
           | (Throw e, w') => (Throw e, w')
           end.
Definition try_catch {A} (body : M A) (handler : Exn -> M A) : M A :=
  fun w => match body w with
           | (Ok a, w') => (Ok a, w')
           | (Throw e, w') => handler e w'
           end.
Definition lift {A} (r : result A) : M A := fun w => (r, w).

Notation "x <- m ;; k" := (bind m (fun x => k))
  (at level 61, m at next level, right associativity).
Notation "m ;;; k" := (bind m (fun _ => k))
  (at level 61, right associativity).

Definition random : M nat :=
  fun w => (Ok (entropy w), mkWorld (users w) (userSessions w) (S (entropy w))).

(** ** JavaScript helpers *)

(** [!s] for an optional string: [undefined] and the empty string are falsy. *)
Definition falsy (s : option string) : bool :=
  match s with
  | None => true
  | Some s => String.eqb s ""
  end.

(** [a || b] on an optional string with a string default. *)
Definition or_else (a : option string) (b : string) : string :=
  match a with
  | Some s => if String.eqb s "" then b else s
  | None => b
  end.

(** The double nearest to an integer: the integer itself below 2^53, else
    53 significant bits with ties to even, and an infinity from 2^1024. *)
Definition to_double (z : Z) : option Z :=
  let a := Z.abs z in
  if a <? 2 ^ 53 then Some z
  else
    let k := Z.log2 a - 52 in
    let q := a / 2 ^ k in
    let r := a mod 2 ^ k in
    let half := 2 ^ (k - 1) in
    let q' := if (half <? r) || ((r =? half) && Z.odd q) then q + 1 else q in
    let m := q' * 2 ^ k in
    if 2 ^ 1024 <=? m then None else Some (Z.sgn z * m).

Definition num_add (a b : option Z) : option Z :=
  match a, b with
  | Some x, Some y => to_double (x + y)
  | _, _ => None
  end.

Definition num_mul (a b : option Z) : option Z :=
  match a, b with
  | Some x, Some y => to_double (x * y)
  | _, _ => None
  end.

(** [new Date(ms)] as the time value the database stores: a [Date] holds at
    most 8.64e15 milliseconds either side of the epoch, and an invalid
    [Date] cannot be written ([toISOString] throws a [RangeError]). *)
Definition valid_date (ms : option Z) : option Z :=
  match ms with
  | Some t => if Z.abs t <=? 8640000000000000 then Some t else None
  | None => None
  end.

(** [s.slice(-1)]: the last character, or the empty string. *)
Fixpoint slice_last (s : string) : string :=
  match s with
  | EmptyString => EmptyString
  | String c EmptyString => String c EmptyString
  | String _ r => slice_last r
  end.

(** [s.slice(0, -1)]: all but the last character. *)
Fixpoint slice_init (s : string) : string :=
  match s with
  | EmptyString => EmptyString
  | String _ EmptyString => EmptyString
  | String c r => String c (slice_init r)
  end.

Definition is_space (c : ascii) : bool :=
  match nat_of_ascii c with
  | 9%nat | 10%nat | 11%nat | 12%nat | 13%nat | 32%nat => true
  | _ => false
  end.

Fixpoint skip_space (s : string) : string :=
  match s with
  | String c r => if is_space c then skip_space r else s
  | EmptyString => EmptyString
  end.

Definition digit_of (c : ascii) : option Z :=
  let n := Z.of_nat (nat_of_ascii c) in
  if (48 <=? n) && (n <=? 57) then Some (n - 48)
  else if (97 <=? n) && (n <=? 102) then Some (n - 87)
  else if (65 <=? n) && (n <=? 70) then Some (n - 55)
  else None.

(** The longest prefix of digits below [radix], read as the integer it
    writes; [acc] is NaN until a first digit is seen. *)
Fixpoint read_digits (radix : Z) (s : string) (acc : option Z) : option Z :=
  match s with
  | EmptyString => acc
  | String c r =>
      match digit_of c with
      | Some d =>
          if d <? radix
          then read_digits radix r
                 (Some (match acc with Some a => a * radix + d | None => d end))
          else acc
      | None => acc
      end
  end.

(** [parseInt(s)] without a radix: blanks, a sign, then hexadecimal after
    [0x] and decimal otherwise; the integer read is rounded to a double
    (by [num_mul]). *)
Definition parseInt (s : string) : option Z :=
  let s1 := skip_space s in
  let '(sign, s2) :=
    match s1 with
    | String "-" r => (-1, r)
    | String "+" r => (1, r)
    | _ => (1, s1)
    end in
  let magnitude :=
    match s2 with
    | String "0" (String "x" r) | String "0" (String "X" r) =>
        read_digits 16 r None
    | _ => read_digits 10 s2 None
    end in
  num_mul (Some sign) magnitude.

(** [AuthService.parseTimeToSeconds]. *)
Definition parseTimeToSeconds (timeString : string) : option Z :=
  let unit := slice_last timeString in
  let value := parseInt (slice_init timeString) in
  if String.eqb unit "s" then value
  else if String.eqb unit "m" then num_mul value (Some 60)
  else if String.eqb unit "h" then num_mul (num_mul value (Some 60)) (Some 60)
  else if String.eqb unit "d" then
    num_mul (num_mul (num_mul value (Some 60)) (Some 60)) (Some 24)
  else value.

(** ** The service *)

Section AuthService.

Variable E : Env.

Let cfg : Config.t := config E.

(** *** jsonwebtoken *)

Definition jwt_sign (payload : JWTPayload.t) (secret : string) : jwt :=
  Jwt payload (hmac E secret payload).

(** [jwt.verify(token, secret)] with no options: the signature, then the
    expiry against the clock in seconds ([clockTimestamp >= exp] is
    expired).  Issuer and audience are checked only when asked for. *)
Definition jwt_verify (token : jwt) (secret : string) (nowMs : Z)
  : result JWTPayload.t :=
  match token with
  | Malformed _ => Throw (JsonWebTokenError "jwt malformed")
  | Jwt payload signature =>
      if String.eqb signature (hmac E secret payload) then
        match JWTPayload.exp payload with
        | None => Throw (JsonWebTokenError "invalid exp value")
        | Some e =>
            if e <=? nowMs / 1000 then Throw (TokenExpiredError "jwt expired")
            else Ok payload
        end
      else Throw (JsonWebTokenError "invalid signature")
  end.

(** [jwt.decode]: the payload, whatever the signature. *)
Definition jwt_decode (token : jwt) : option JWTPayload.t :=
  match token with
  | Jwt payload _ => Some payload
  | Malformed _ => None
  end.

(** The string of a token, which is what gets hashed. *)
Definition token_string (token : jwt) : string :=
  match token with
  | Jwt payload signature => jwt_encode E payload signature
  | Malformed raw => raw
  end.

(** *** bcryptjs *)

Definition bcrypt_hash (s : string) (rounds : Z) : M string :=
  n <- random ;;
  ret (bcrypt_digest E s rounds (gen_salt E n)).

(** *** The tables *)

Definition select_user (where_ : User.t -> bool) : M (option User.t) :=
  fun w => (Ok (find where_ (users w)), w).

Definition select_session (where_ : Session.t -> bool) : M (option Session.t) :=
  fun w => (Ok (find where_ (userSessions w)), w).

(** [db.insert(users).values(...).returning()]: [id] is [defaultRandom()],
    [mfaEnabled] defaults to false, [createdAt] to now, [deletedAt] to null. *)
Definition insert_user (nowMs : Z) (username email passwordHash : string)
    (displayName : string) (verified : bool) : M User.t :=
  n <- random ;;
  let row := User.mk (gen_uuid E n) username email passwordHash
               (Some displayName) verified false nowMs None in
  fun w => (Ok row, mkWorld (users w ++ [row]) (userSessions w) (entropy w)).

Definition insert_session (nowMs : Z) (userId tokenHash refreshTokenHash : string)
    (sessionInfo : option SessionInfo.t) (expiresAt : Z) : M unit :=
  n <- random ;;
  let row := Session.mk (gen_uuid E n) userId tokenHash (Some refreshTokenHash)
               (match sessionInfo with Some i => SessionInfo.deviceInfo i | None => None end)
               (match sessionInfo with Some i => SessionInfo.ipAddress i | None => None end)
               (match sessionInfo with Some i => SessionInfo.userAgent i | None => None end)
               expiresAt nowMs nowMs in
  fun w => (Ok tt, mkWorld (users w) (userSessions w ++ [row]) (entropy w)).

Definition update_sessions (where_ : Session.t -> bool)
    (set : Session.t -> Session.t) : M unit :=
  fun w => (Ok tt,
            mkWorld (users w)
              (map (fun s => if where_ s then set s else s) (userSessions w))
              (entropy w)).

Definition delete_sessions (where_ : Session.t -> bool) : M unit :=
  fun w => (Ok tt,
            mkWorld (users w)
              (filter (fun s => negb (where_ s)) (userSessions w))
              (entropy w)).

(** [eq(column, value)] on a nullable column: a null is equal to nothing. *)
Definition eq_opt (column : option string) (value : string) : bool :=
  match column with
  | Some c => String.eqb c value
  | None => false
  end.

(** [column IS NULL], which is what [isNull(column)] sends. *)
Definition is_null {A} (column : option A) : bool :=
  match column with
  | None => true
  | Some _ => false
  end.

(** [eq(column, null)]: the comparison [column = NULL] is true of no row,
    also of none whose column is null. *)
Definition eq_null {A} (column : option A) : bool := false.

(** *** AuthService *)

(** [verifyMfaCode]: the placeholder of the source. *)
Definition verifyMfaCode (userId : string) (code : string) : M bool :=
  ret (String.eqb code "123456").

Definition generateTokens (nowMs : Z) (user : User.t)
    (sessionInfo : option SessionInfo.t) : M TokenPair.t :=
  let now := nowMs / 1000 in
  let accessExpiresIn := parseTimeToSeconds (Config.accessExpiresIn cfg) in
  let refreshExpiresIn := parseTimeToSeconds (Config.refreshExpiresIn cfg) in
  let accessPayload :=
    JWTPayload.mk (User.id user) (Some (User.email user)) (Some (User.username user))
      now (num_add (Some now) accessExpiresIn)
      (Config.issuer cfg) (Config.audience cfg) in
  let refreshPayload :=
    JWTPayload.mk (User.id user) None None
      now (num_add (Some now) refreshExpiresIn)
      (Config.issuer cfg) (Config.audience cfg) in
  let accessToken := jwt_sign accessPayload (Config.secret cfg) in
  let refreshToken := jwt_sign refreshPayload (Config.refreshSecret cfg) in
  tokenHash <- bcrypt_hash (token_string accessToken) 10 ;;
  refreshTokenHash <- bcrypt_hash (token_string refreshToken) 10 ;;
  match valid_date (num_mul (num_add (Some now) refreshExpiresIn) (Some 1000)) with
  | None => throw (RangeError "Invalid time value")
  | Some expiresAt =>
      insert_session nowMs (User.id user) tokenHash refreshTokenHash
        sessionInfo expiresAt ;;;
      ret (TokenPair.mk accessToken refreshToken accessExpiresIn)
  end.

Definition register (nowMs : Z) (data : RegisterData.t)
  : M (PublicUser.t * TokenPair.t) :=
  try_catch
    (existingUser <-
       select_user (fun u => String.eqb (User.email u) (RegisterData.email data)) ;;
     match existingUser with
     | Some _ => throw (AppError "User already exists with this email" 409 None true)
     | None =>
     existingUsername <-
       select_user (fun u => String.eqb (User.username u) (RegisterData.username data)) ;;
     match existingUsername with
     | Some _ => throw (AppError "Username is already taken" 409 None true)
     | None =>
     passwordHash <- bcrypt_hash (RegisterData.password data) (Config.rounds cfg) ;;
     newUser <-
       insert_user nowMs (RegisterData.username data) (RegisterData.email data)
         passwordHash
         (or_else (RegisterData.displayName data) (RegisterData.username data))
         false ;;
     tokens <- generateTokens nowMs newUser None ;;
     ret (userWithoutPassword newUser, tokens)
     end end)
    (fun error => throw error).

Definition login (nowMs : Z) (credentials : LoginCredentials.t)
    (sessionInfo : option SessionInfo.t) : M (PublicUser.t * TokenPair.t) :=
  try_catch
    (found <-
       select_user (fun u =>
         String.eqb (User.email u) (LoginCredentials.email credentials)
         && eq_null (User.deletedAt u)) ;;
     match found with
     | None => throw (AppError "Invalid credentials" 401 None true)
     | Some user =>
     if negb (bcrypt_compare E (LoginCredentials.password credentials)
                (User.passwordHash user))
     then throw (AppError "Invalid credentials" 401 None true)
     else
     if User.mfaEnabled user && falsy (LoginCredentials.mfaCode credentials)
     then throw (AppError "MFA code required" 401 (Some [("mfaRequired", true)]) true)
     else
     (match LoginCredentials.mfaCode credentials with
      | Some code =>
          if User.mfaEnabled user && negb (falsy (Some code)) then
            isMfaValid <- verifyMfaCode (User.id user) code ;;
            if negb isMfaValid then throw (AppError "Invalid MFA code" 401 None true)
            else ret tt
          else ret tt
      | None => ret tt
      end) ;;;
     tokens <- generateTokens nowMs user sessionInfo ;;
     ret (userWithoutPassword user, tokens)
     end)
    (fun error => throw error).

Definition refreshToken (nowMs : Z) (refreshToken : jwt) : M TokenPair.t :=
  try_catch
    (payload <- lift (jwt_verify refreshToken (Config.refreshSecret cfg) nowMs) ;;
     refreshTokenHash <- bcrypt_hash (token_string refreshToken) 10 ;;
     found <-
       select_session (fun s =>
         String.eqb (Session.userId s) (JWTPayload.sub payload)
         && eq_opt (Session.refreshTokenHash s) refreshTokenHash) ;;
     match found with
     | None => throw (AppError "Invalid refresh token" 401 None true)
     | Some session =>
     if Session.expiresAt session <? nowMs
     then throw (AppError "Invalid refresh token" 401 None true)
     else
     foundUser <-
       select_user (fun u => String.eqb (User.id u) (JWTPayload.sub payload)) ;;
     match foundUser with
     | None => throw (AppError "User not found" 404 None true)
     | Some user =>
     tokens <- generateTokens nowMs user None ;;
     newTokenHash <- bcrypt_hash (token_string (TokenPair.accessToken tokens)) 10 ;;
     newRefreshTokenHash <-
       bcrypt_hash (token_string (TokenPair.refreshToken tokens)) 10 ;;
     update_sessions
       (fun s => String.eqb (Session.id s) (Session.id session))
       (fun s => Session.mk (Session.id s) (Session.userId s)
                   newTokenHash (Some newRefreshTokenHash)
                   (Session.deviceInfo s) (Session.ipAddress s) (Session.userAgent s)
                   (Session.expiresAt s) (Session.createdAt s) nowMs) ;;;
     ret tokens
     end end)
    (fun error => throw (AppError "Invalid refresh token" 401 None true)).

Definition logout (userId : string) (tokenHash : string) : M unit :=
  try_catch
    (delete_sessions (fun s =>
       String.eqb (Session.userId s) userId
       && String.eqb (Session.tokenHash s) tokenHash))
    (fun error => throw error).

Definition verifyToken (nowMs : Z) (token : jwt) : M JWTPayload.t :=
  try_catch
    (payload <- lift (jwt_verify token (Config.secret cfg) nowMs) ;;
     tokenHash <- bcrypt_hash (token_string token) 10 ;;
     found <-
       select_session (fun s =>
         String.eqb (Session.userId s) (JWTPayload.sub payload)
         && String.eqb (Session.tokenHash s) tokenHash) ;;
     match found with
     | None => throw (AppError "Token expired or invalid" 401 None true)
     | Some session =>
         if Session.expiresAt session <? nowMs
         then throw (AppError "Token expired or invalid" 401 None true)
         else ret payload
     end)
    (fun error =>
       if instanceof_JsonWebTokenError error
       then throw (AppError "Invalid token" 401 None true)
       else throw error).

End AuthService.

(** ** A reference environment

    Two small executable instances of [Env], on which the service can be
    run: digests keep the plaintext behind the salt, signatures keep the
    key behind the subject, and the configuration is that of
    backend/.env.example.  Neither is bcrypt.  [salted_env] shares with it
    that every digest has a salt of its own; [demo_env], with one salt for
    all digests, is kept for the runs in which a session is found. *)

Definition demo_config : Config.t :=
  Config.mk "your-super-secret-jwt-key-change-this-in-production"
            "your-super-secret-refresh-key-change-this-in-production"
            "15m" "7d" "enrichment" "enrichment-users" 12.

Definition demo_digest (s : string) (rounds : Z) (salt : string) : string :=
  salt ++ s.

Definition demo_compare (s digest : string) : bool :=
  match digest with
  | String _ rest => String.eqb rest s
  | EmptyString => false
  end.

Definition demo_hmac (secret : string) (payload : JWTPayload.t) : string :=
  JWTPayload.sub payload ++ "." ++ secret.

Definition demo_number (z : Z) : string :=
  NilZero.string_of_int (Z.to_int z).

Definition demo_encode (payload : JWTPayload.t) (signature : string) : string :=
  JWTPayload.sub payload ++ "." ++ demo_number (JWTPayload.iat payload)
    ++ "." ++ signature.

Definition demo_letter (n : nat) : string :=
  String (ascii_of_nat (65 + Nat.modulo n 26)) EmptyString.

(** Every digest is computed with the same salt, so that a digest can be
    recomputed from its plaintext. *)
Definition demo_env : Env :=
  mkEnv demo_config demo_digest demo_compare demo_hmac demo_encode
    (fun _ => "A") (fun n => "id-" ++ demo_letter n).

(** A salt of its own for every draw, as bcryptjs makes them: the draw in
    unary, closed by a dollar sign. *)
Fixpoint unary_salt (n : nat) : string :=
  match n with
  | O => "$"
  | S n' => String "a" (unary_salt n')
  end.

Fixpoint after_salt (digest : string) : string :=
  match digest with
  | EmptyString => EmptyString
  | String c rest => if Ascii.eqb c "$" then rest else after_salt rest
  end.

Definition salted_compare (s digest : string) : bool :=
  String.eqb (after_salt digest) s.

Definition salted_env : Env :=
  mkEnv demo_config demo_digest salted_compare demo_hmac demo_encode
    unary_salt (fun n => "id-" ++ demo_letter n).

Definition empty_world : World := mkWorld [] [] 0.

Definition alice : RegisterData.t :=
  RegisterData.mk "alice" "alice@x.com" "pw123456789012345678901234567890" None None.

Definition alice_credentials (mfaCode : option string) : LoginCredentials.t :=
  LoginCredentials.mk "alice@x.com" "pw123456789012345678901234567890" mfaCode.

(** ** Contracts of the external libraries *)

(** [bcrypt.compare] accepts a plaintext against any digest [bcrypt.hash]
    makes of it. *)
Definition bcrypt_sound (E : Env) : Prop :=
  forall s rounds n,
    bcrypt_compare E s (bcrypt_digest E s rounds (gen_salt E n)) = true.

(** [bcrypt.hash] draws a salt at every call and the digest carries it:
    two calls never return the same digest. *)
Definition digests_salted (E : Env) : Prop :=
  forall s s' rounds rounds' n m,
    n <> m ->
    bcrypt_digest E s rounds (gen_salt E n)
    <> bcrypt_digest E s' rounds' (gen_salt E m).

(** An ideal MAC: two keys never sign a payload alike. *)
Definition hmac_key_separating (E : Env) : Prop :=
  forall k k' payload, hmac E k payload = hmac E k' payload -> k = k'.

(** ** Reading the tables *)

(** The account a login is meant for: the first row with that email whose
    tombstone is unset. *)
Definition account_by_email (w : World) (email : string) : option User.t :=
  find (fun u => String.eqb (User.email u) email && is_null (User.deletedAt u))
       (users w).

(** The session a presented digest selects for an account, by access-token
    digest and by refresh-token digest. *)
Definition session_by_token (w : World) (userId digest : string) : option Session.t :=
  find (fun s => String.eqb (Session.userId s) userId
                 && String.eqb (Session.tokenHash s) digest)
       (userSessions w).

Definition session_by_refresh (w : World) (userId digest : string) : option Session.t :=
  find (fun s => String.eqb (Session.userId s) userId
                 && eq_opt (Session.refreshTokenHash s) digest)
       (userSessions w).

(** The digest the next [bcrypt.hash] of a token will produce in [w]. *)
Definition next_digest (E : Env) (w : World) (token : jwt) : string :=
  bcrypt_digest E (token_string E token) 10 (gen_salt E (entropy w)).

(** A digest [bcrypt.hash] can make of a token, with some salt. *)
Definition digest_of_token (E : Env) (token : jwt) (digest : string) : Prop :=
  exists rounds n,
    digest = bcrypt_digest E (token_string E token) rounds (gen_salt E n).

(** The world after [n] more draws of entropy: same tables. *)
Definition drawn (n : nat) (w : World) : World :=
  mkWorld (users w) (userSessions w) (n + entropy w).

Definition same_tables (w w' : World) : Prop :=
  users w' = users w /\ userSessions w' = userSessions w.

(** ** The errors the service raises *)

Definition invalid_credentials : Exn := AppError "Invalid credentials" 401 None true.
Definition mfa_required : Exn :=
  AppError "MFA code required" 401 (Some [("mfaRequired", true)]) true.
Definition invalid_mfa : Exn := AppError "Invalid MFA code" 401 None true.
Definition invalid_refresh_token : Exn := AppError "Invalid refresh token" 401 None true.
Definition invalid_token : Exn := AppError "Invalid token" 401 None true.
Definition session_invalid : Exn := AppError "Token expired or invalid" 401 None true.
Definition email_conflict : Exn := AppError "User already exists with this email" 409 None true.
Definition username_conflict : Exn := AppError "Username is already taken" 409 None true.

(** ** What the service issues and writes *)

(** The two payloads and the pair [generateTokens] makes for [user]. *)
Definition accessPayload (E : Env) (nowMs : Z) (user : User.t) : JWTPayload.t :=
  JWTPayload.mk (User.id user) (Some (User.email user)) (Some (User.username user))
    (nowMs / 1000)
    (num_add (Some (nowMs / 1000))
       (parseTimeToSeconds (Config.accessExpiresIn (config E))))
    (Config.issuer (config E)) (Config.audience (config E)).

Definition refreshPayload (E : Env) (nowMs : Z) (user : User.t) : JWTPayload.t :=
  JWTPayload.mk (User.id user) None None
    (nowMs / 1000)
    (num_add (Some (nowMs / 1000))
       (parseTimeToSeconds (Config.refreshExpiresIn (config E))))
    (Config.issuer (config E)) (Config.audience (config E)).

Definition issued_pair (E : Env) (nowMs : Z) (user : User.t) : TokenPair.t :=
  TokenPair.mk
    (jwt_sign E (accessPayload E nowMs user) (Config.secret (config E)))
    (jwt_sign E (refreshPayload E nowMs user) (Config.refreshSecret (config E)))
    (parseTimeToSeconds (Config.accessExpiresIn (config E))).

(** The expiry [generateTokens] gives a session: the [exp] of the refresh
    token in milliseconds, when that is a valid [Date]. *)
Definition session_expiry (E : Env) (nowMs : Z) : option Z :=
  valid_date
    (num_mul
       (num_add (Some (nowMs / 1000))
          (parseTimeToSeconds (Config.refreshExpiresIn (config E))))
       (Some 1000)).

(** The row [generateTokens] stores when it runs in [w]. *)
Definition issued_session (E : Env) (nowMs : Z) (user : User.t)
    (info : option SessionInfo.t) (expiresAt : Z) (w : World) : Session.t :=
  Session.mk (gen_uuid E (2 + entropy w)) (User.id user)
    (bcrypt_digest E
       (token_string E (TokenPair.accessToken (issued_pair E nowMs user)))
       10 (gen_salt E (entropy w)))
    (Some (bcrypt_digest E
             (token_string E (TokenPair.refreshToken (issued_pair E nowMs user)))
             10 (gen_salt E (1 + entropy w))))
    (match info with Some i => SessionInfo.deviceInfo i | None => None end)
    (match info with Some i => SessionInfo.ipAddress i | None => None end)
    (match info with Some i => SessionInfo.userAgent i | None => None end)
    expiresAt nowMs nowMs.

(** The row [register] inserts when it runs in [w]. *)
Definition registered_user (E : Env) (nowMs : Z) (data : RegisterData.t)
    (w : World) : User.t :=
  User.mk (gen_uuid E (1 + entropy w)) (RegisterData.username data)
    (RegisterData.email data)
    (bcrypt_digest E (RegisterData.password data) (Config.rounds (config E))
       (gen_salt E (entropy w)))
    (Some (or_else (RegisterData.displayName data) (RegisterData.username data)))
    false false nowMs None.

(** The digests [refreshToken] writes into the matched row when it runs in
    [w] for [user]. *)
Definition rotated_tokenHash (E : Env) (nowMs : Z) (user : User.t) (w : World)
  : string :=
  bcrypt_digest E
    (token_string E (TokenPair.accessToken (issued_pair E nowMs user)))
    10 (gen_salt E (4 + entropy w)).

Definition rotated_refreshTokenHash (E : Env) (nowMs : Z) (user : User.t) (w : World)
  : string :=
  bcrypt_digest E
    (token_string E (TokenPair.refreshToken (issued_pair E nowMs user)))
    10 (gen_salt E (5 + entropy w)).

Definition rotate (E : Env) (nowMs : Z) (user : User.t) (w : World)
    (session s : Session.t) : Session.t :=
  if String.eqb (Session.id s) (Session.id session) then
    Session.mk (Session.id s) (Session.userId s)
      (rotated_tokenHash E nowMs user w)
      (Some (rotated_refreshTokenHash E nowMs user w))
      (Session.deviceInfo s) (Session.ipAddress s) (Session.userAgent s)
      (Session.expiresAt s) (Session.createdAt s) nowMs
  else s.

(** ** A claim of the specification that the service does not meet *)

(** The claim of the specification, as a property of an environment: an
    account with a tombstone is invisible to [login], to [refreshToken] and
    to the uniqueness checks of [register]. *)
Definition soft_deleted_excluded (E : Env) : Prop :=
  forall (w : World) (u : User.t),
    In u (users w) ->
    User.deletedAt u <> None ->
    (forall nowMs c info pu toks w',
        login E nowMs c info w = (Ok (pu, toks), w') ->
        pu <> userWithoutPassword u)
    /\ (forall nowMs token payload,
          jwt_decode token = Some payload ->
          JWTPayload.sub payload = User.id u ->
          exists w', refreshToken E nowMs token w = (Throw invalid_refresh_token, w'))
    /\ (forall nowMs data,
          (forall u', In u' (users w) -> User.deletedAt u' = None ->
                      User.email u' <> RegisterData.email data
                      /\ User.username u' <> RegisterData.username data) ->
          forall w',
            register E nowMs data w <> (Throw email_conflict, w')
            /\ register E nowMs data w <> (Throw username_conflict, w')).

(** ** Runs on the reference environment *)

(** Alice registers at second 1000. *)
Definition alice_registered : result (PublicUser.t * TokenPair.t) * World :=
  Eval vm_compute in register demo_env 1000000 alice empty_world.

Definition alice_account : PublicUser.t :=
  Eval vm_compute in
    match fst alice_registered with
    | Ok (pu, _) => pu
    | Throw _ => userWithoutPassword (registered_user demo_env 0 alice empty_world)
    end.

Definition alice_tokens : TokenPair.t :=
  Eval vm_compute in
    match fst alice_registered with
    | Ok (_, toks) => toks
    | Throw _ => TokenPair.mk (Malformed "") (Malformed "") None
    end.

Definition world_alice : World := Eval vm_compute in snd alice_registered.

(** Her refresh token is used at second 1005. *)
Definition alice_refreshed : result TokenPair.t * World :=
  Eval vm_compute in
    refreshToken demo_env 1005000 (TokenPair.refreshToken alice_tokens) world_alice.

Definition alice_new_tokens : TokenPair.t :=
  Eval vm_compute in
    match fst alice_refreshed with
    | Ok toks => toks
    | Throw _ => TokenPair.mk (Malformed "") (Malformed "") None
    end.

Definition world_refreshed : World := Eval vm_compute in snd alice_refreshed.

(** The session row her registration created. *)
Definition alice_session : Session.t :=
  Eval vm_compute in
    match userSessions world_alice with
    | s :: _ => s
    | [] => Session.mk "" "" "" None None None None 0 0 0
    end.

(** Carol has MFA enabled; Bob's account carries a tombstone. *)
Definition carol : User.t :=
  User.mk "id-carol" "carol" "carol@x.com" "Acarol-password" (Some "Carol")
    true true 0 None.

Definition bob : User.t :=
  User.mk "id-bob" "bob" "bob@x.com" "Abob-password" (Some "Bob")
    true false 0 (Some 500).

Definition world_carol_bob : World := mkWorld [carol; bob] [] 0.

Definition bobby : RegisterData.t :=
  RegisterData.mk "bobby" "bob@x.com" "another-password" None None.

(** Alice's account gets a tombstone two seconds after she registered. *)
Definition world_alice_deleted : World :=
  mkWorld
    (map (fun u => User.mk (User.id u) (User.username u) (User.email u)
                     (User.passwordHash u) (User.displayName u) (User.verified u)
                     (User.mfaEnabled u) (User.createdAt u) (Some 1002000))
         (users world_alice))
    (userSessions world_alice) (entropy world_alice).

(** Alice registers where every digest gets a salt of its own. *)
Definition world_alice_salted : World :=
  Eval vm_compute in snd (register salted_env 1000000 alice empty_world).

Definition alice_session_salted : Session.t :=
  Eval vm_compute in
    match userSessions world_alice_salted with
    | s :: _ => s
    | [] => Session.mk "" "" "" None None None None 0 0 0
    end.

(** ** Worlds the service builds *)

(** Every digest stored in [userSessions] was made with a salt drawn
    before: the draw is below the entropy consumed so far. *)
Definition drawn_digest (E : Env) (w : World) (digest : string) : Prop :=
  exists s rounds n,
    (n < entropy w)%nat /\ digest = bcrypt_digest E s rounds (gen_salt E n).

Definition digests_drawn (E : Env) (w : World) : Prop :=
  forall s, In s (userSessions w) ->
    drawn_digest E w (Session.tokenHash s)
    /\ forall h, Session.refreshTokenHash s = Some h -> drawn_digest E w h.

(** One call of the service. *)
Inductive step (E : Env) : World -> World -> Prop :=
| step_register nowMs data w :
    step E w (snd (register E nowMs data w))
| step_login nowMs credentials sessionInfo w :
    step E w (snd (login E nowMs credentials sessionInfo w))
| step_refreshToken nowMs token w :
    step E w (snd (refreshToken E nowMs token w))
| step_logout userId tokenHash w :
    step E w (snd (logout userId tokenHash w))
| step_verifyToken nowMs token w :
    step E w (snd (verifyToken E nowMs token w)).

(** The worlds reached from the empty database by calls of the service. *)
Inductive reachable (E : Env) : World -> Prop :=
| reachable_empty : reachable E empty_world
| reachable_step w w' : reachable E w -> step E w w' -> reachable E w'.

(** The data fits the columns of [users] ([varchar(32)], [varchar(255)],
    [varchar(100)]): the database refuses a longer value. *)
Definition fits_users_columns (data : RegisterData.t) : Prop :=
  (String.length (RegisterData.username data) <= 32)%nat
  /\ (String.length (RegisterData.email data) <= 255)%nat
  /\ (String.length (or_else (RegisterData.displayName data)
                       (RegisterData.username data)) <= 100)%nat.

(** * The layers around the service

    utils/errors.ts, middleware/errorHandler.ts and middleware/auth.ts: how
    a request reaches [verifyToken] and how an exception becomes a response.
    A response is its status and its JSON body; [next()] is an outcome.
    The stack trace of an error is left out of a body. *)

(** ** Strings *)

(** [s.split(sep)] for a one-character separator: never empty. *)
Fixpoint split (sep : ascii) (s : string) : list string :=
  match s with
  | EmptyString => [EmptyString]
  | String c r =>
      if Ascii.eqb c sep then EmptyString :: split sep r
      else match split sep r with
           | h :: t => String c h :: t
           | [] => [String c EmptyString]
           end
  end.

(** The lower case of a code unit below 256: the letters A to Z and the
    accented capitals from U+00C0 to U+00DE, the sign U+00D7 apart. *)
Definition lower_char (c : ascii) : ascii :=
  let n := nat_of_ascii c in
  if (65 <=? n)%nat && (n <=? 90)%nat then ascii_of_nat (n + 32)
  else if (192 <=? n)%nat && (n <=? 222)%nat && negb (n =? 215)%nat
  then ascii_of_nat (n + 32)
  else c.

(** [s.toLowerCase()]. *)
Fixpoint toLowerCase (s : string) : string :=
  match s with
  | EmptyString => EmptyString
  | String c r => String (lower_char c) (toLowerCase r)
  end.

(** The value of a string of decimal digits, most significant first. *)
Fixpoint decimal_value_from (acc : Z) (s : string) : Z :=
  match s with
  | EmptyString => acc
  | String c r => decimal_value_from (acc * 10 + (Z.of_nat (nat_of_ascii c) - 48)) r
  end.

Definition decimal_value (s : string) : Z := decimal_value_from 0 s.

Definition is_decimal_digit (c : ascii) : bool :=
  (48 <=? nat_of_ascii c)%nat && (nat_of_ascii c <=? 57)%nat.

Fixpoint all_decimal_digits (s : string) : bool :=
  match s with
  | EmptyString => true
  | String c r => is_decimal_digit c && all_decimal_digits r
  end.

Fixpoint has_char (c : ascii) (s : string) : bool :=
  match s with
  | EmptyString => false
  | String d r => Ascii.eqb d c || has_char c r
  end.

(** ** Responses *)

Inductive Details : Type :=
| DetailsNone
| DetailsObject (fields : list (string * bool))
| DetailsText (text : string)
| DetailsError (name message : string).

Module ErrorBody.
Record t : Type := mk {
  code : Z;
  message : string;
  details : Details;
  requestId : option string
}.
End ErrorBody.

Module Response.
Record t : Type := mk {
  status : Z;
  body : ErrorBody.t
}.
End Response.

(** The columns [authMiddleware] selects into [req.user], among those of
    [User.t]. *)
Module RequestUser.
Record t : Type := mk {
  id : string;
  email : string;
  username : string;
  displayName : option string;
  verified : bool;
  mfaEnabled : bool
}.
End RequestUser.

Definition requestUser (u : User.t) : RequestUser.t :=
  RequestUser.mk (User.id u) (User.email u) (User.username u)
    (User.displayName u) (User.verified u) (User.mfaEnabled u).

(** What a middleware does with a request: it calls [next()], with
    [req.user] set or not, or it answers. *)
Inductive Outcome : Type :=
| Next (user : option RequestUser.t)
| Respond (response : Response.t).

(** ** utils/errors.ts *)

Definition error_name (e : Exn) : string :=
  match e with
  | AppError _ _ _ _ => "Error"
  | JsonWebTokenError _ => "JsonWebTokenError"
  | TokenExpiredError _ => "TokenExpiredError"
  | RangeError _ => "RangeError"
  end.

Definition error_message (e : Exn) : string :=
  match e with
  | AppError m _ _ _ => m
  | JsonWebTokenError m => m
  | TokenExpiredError m => m
  | RangeError m => m
  end.

Definition details_of (d : option (list (string * bool))) : Details :=
  match d with
  | Some fields => DetailsObject fields
  | None => DetailsNone
  end.

Module ERROR_CODES.
Definition INVALID_CREDENTIALS : Z := 40101.
Definition TOKEN_EXPIRED : Z := 40102.
Definition TOKEN_INVALID : Z := 40103.
Definition MFA_REQUIRED : Z := 40104.
Definition MFA_INVALID : Z := 40105.
Definition USER_NOT_FOUND : Z := 40401.
Definition SERVER_NOT_FOUND : Z := 40402.
Definition CHANNEL_NOT_FOUND : Z := 40403.
Definition USER_ALREADY_EXISTS : Z := 40901.
Definition USERNAME_TAKEN : Z := 40902.
Definition EMAIL_TAKEN : Z := 40903.
Definition RATE_LIMIT_EXCEEDED : Z := 42901.
Definition INTERNAL_SERVER_ERROR : Z := 50001.
End ERROR_CODES.

(** [getErrorCode], on the message and the status of an [AppError]. *)
Definition getErrorCode (message : string) (statusCode : Z) : Z :=
  let baseCode := statusCode * 100 in
  let m := toLowerCase message in
  if String.eqb m "invalid credentials" then ERROR_CODES.INVALID_CREDENTIALS
  else if String.eqb m "token expired" then ERROR_CODES.TOKEN_EXPIRED
  else if String.eqb m "user not found" then ERROR_CODES.USER_NOT_FOUND
  else if String.eqb m "server not found" then ERROR_CODES.SERVER_NOT_FOUND
  else if String.eqb m "channel not found" then ERROR_CODES.CHANNEL_NOT_FOUND
  else if String.eqb m "user already exists" then ERROR_CODES.USER_ALREADY_EXISTS
  else if String.eqb m "username is already taken" then ERROR_CODES.USERNAME_TAKEN
  else if String.eqb m "rate limit exceeded" then ERROR_CODES.RATE_LIMIT_EXCEEDED
  else baseCode + 1.

Definition createErrorResponse (error : Exn) (requestId : option string)
  : ErrorBody.t :=
  match error with
  | AppError message statusCode details _ =>
      ErrorBody.mk (getErrorCode message statusCode) message (details_of details)
        requestId
  | _ =>
      ErrorBody.mk ERROR_CODES.INTERNAL_SERVER_ERROR "An unexpected error occurred"
        DetailsNone requestId
  end.

Definition isOperationalError (error : Exn) : bool :=
  match error with
  | AppError _ _ _ isOperational => isOperational
  | _ => false
  end.

(** ** middleware/errorHandler.ts *)

Definition handleProgrammingError (isProduction : bool) (error : Exn)
    (requestId : string) : Response.t :=
  if isProduction then
    Response.mk 500
      (ErrorBody.mk 50001 "Internal server error" DetailsNone (Some requestId))
  else
    Response.mk 500
      (ErrorBody.mk 50001 "Internal server error"
         (DetailsError (error_name error) (error_message error)) (Some requestId)).

(** [errorHandler]: [requestId] is the [uuidv4()] it draws. *)
Definition errorHandler (isProduction : bool) (requestId : string) (error : Exn)
  : Response.t :=
  if isOperationalError error then
    Response.mk
      (match error with AppError _ statusCode _ _ => statusCode | _ => 500 end)
      (createErrorResponse error (Some requestId))
  else handleProgrammingError isProduction error requestId.

Definition handleJWTError (error : Exn) : Exn :=
  let name := error_name error in
  if String.eqb name "JsonWebTokenError" then AppError "Invalid token" 401 None true
  else if String.eqb name "TokenExpiredError" then AppError "Token expired" 401 None true
  else if String.eqb name "NotBeforeError" then AppError "Token not active" 401 None true
  else AppError "Token verification failed" 401 None true.

(** ** middleware/auth.ts *)

Definition extractSchemeToken (scheme : string) (authHeader : string)
  : option string :=
  match split " " authHeader with
  | [found; token] => if String.eqb found scheme then Some token else None
  | _ => None
  end.

Definition extractTokenFromHeader (authHeader : string) : option string :=
  extractSchemeToken "Bearer" authHeader.

Definition extractBotTokenFromHeader (authHeader : string) : option string :=
  extractSchemeToken "Bot" authHeader.

(** The answer of the [catch] block of [authMiddleware]. *)
Definition auth_rejection (error : Exn) : Response.t :=
  match error with
  | AppError message statusCode details _ =>
      Response.mk statusCode
        (ErrorBody.mk (statusCode * 100 + 1) message (details_of details) None)
  | _ =>
      Response.mk 401
        (ErrorBody.mk 40101 "Unauthorized" (DetailsText "Invalid or expired token")
           None)
  end.

Section Middleware.

Variable E : Env.

(** How jsonwebtoken reads the string of a token. *)
Variable jwt_read : string -> jwt.

Definition authMiddleware (nowMs : Z) (authorization : option string) : M Outcome :=
  try_catch
    (match authorization with
     | None => throw (AppError "Authorization header missing" 401 None true)
     | Some authHeader =>
     if String.eqb authHeader ""
     then throw (AppError "Authorization header missing" 401 None true)
     else
     if falsy (extractTokenFromHeader authHeader)
     then throw (AppError "Invalid authorization format" 401 None true)
     else
     match extractTokenFromHeader authHeader with
     | None => throw (AppError "Invalid authorization format" 401 None true)
     | Some token =>
       payload <- verifyToken E nowMs (jwt_read token) ;;
       found <-
         select_user (fun u => String.eqb (User.id u) (JWTPayload.sub payload)) ;;
       match found with
       | None => throw (AppError "User not found" 401 None true)
       | Some user => ret (Next (Some (requestUser user)))
       end
     end
     end)
    (fun error => ret (Respond (auth_rejection error))).

Definition optionalAuthMiddleware (nowMs : Z) (authorization : option string)
  : M Outcome :=
  try_catch
    (match authorization with
     | None => ret (Next None)
     | Some authHeader =>
     if String.eqb authHeader "" then ret (Next None)
     else
     match extractTokenFromHeader authHeader with
     | None => ret (Next None)
     | Some token =>
     if String.eqb token "" then ret (Next None)
     else
       payload <- verifyToken E nowMs (jwt_read token) ;;
       found <-
         select_user (fun u => String.eqb (User.id u) (JWTPayload.sub payload)) ;;
       match found with
       | Some user => ret (Next (Some (requestUser user)))
       | None => ret (Next None)
       end
     end
     end)
    (fun error => ret (Next None)).

(** [botAuthMiddleware]: the token check is a placeholder that always
    throws. *)
Definition botAuthMiddleware (authorization : option string) : Response.t :=
  match authorization with
  | None => auth_rejection (AppError "Authorization header missing" 401 None true)
  | Some authHeader =>
      if String.eqb authHeader ""
      then auth_rejection (AppError "Authorization header missing" 401 None true)
      else if falsy (extractBotTokenFromHeader authHeader)
      then auth_rejection (AppError "Invalid bot authorization format" 401 None true)
      else auth_rejection (AppError "Bot authentication not implemented" 501 None true)
  end.

End Middleware.

(** ** Notions for the properties beyond the claims *)

(** No two rows of [users] share an email, and no two share a username. *)
Definition unique_identities (w : World) : Prop :=
  NoDup (map User.email (users w)) /\ NoDup (map User.username (users w)).


(** Reading a token string on the reference runs: Alice's two access
    tokens are known, every other string is not a token. *)
Definition demo_read (s : string) : jwt :=
  if String.eqb s (token_string demo_env (TokenPair.accessToken alice_tokens))
  then TokenPair.accessToken alice_tokens
  else if String.eqb s (token_string demo_env (TokenPair.accessToken alice_new_tokens))
  then TokenPair.accessToken alice_new_tokens
  else Malformed s.

(** Dave is new. *)
Definition dave : RegisterData.t :=
  RegisterData.mk "dave" "dave@x.com" "dave-password" None None.

Definition alice_bearer : string :=
  Eval vm_compute in
    "Bearer " ++ token_string demo_env (TokenPair.accessToken alice_tokens).

(** * Properties *)

Example parse_15m : parseTimeToSeconds "15m" = Some 900.
Proof. reflexivity. Qed.

Example parse_7d : parseTimeToSeconds "7d" = Some 604800.
Proof. reflexivity. Qed.

Example parse_no_unit : parseTimeToSeconds "900" = Some 90.
Proof. reflexivity. Qed.

Example parse_nan : parseTimeToSeconds "m" = None.
Proof. reflexivity. Qed.

(** ** Running the monad *)

Ltac run :=
  unfold bcrypt_hash, verifyMfaCode, insert_user, insert_session,
    update_sessions, delete_sessions, select_user, select_session,
    try_catch, bind, ret, throw, lift, random in *;
  cbn beta iota zeta in *.

Lemma find_In_some {A} (p : A -> bool) (l : list A) (x : A) :
  In x l -> p x = true -> exists y, find p l = Some y.
Proof.
  induction l as [|a l IH]; intros Hin Hp; [contradiction|].
  cbn. destruct (p a) eqn:Ha; [eauto|].
  destruct Hin as [->|Hin]; [congruence|auto].
Qed.

Lemma find_none_iff {A} (p : A -> bool) (l : list A) :
  find p l = None <-> forall x, In x l -> p x = false.
Proof.
  split.
  - intros H x Hin. exact (find_none p l H x Hin).
  - induction l as [|a l IH]; intros H; [reflexivity|].
    cbn. rewrite (H a (or_introl eq_refl)). apply IH.
    intros x Hx. apply H. now right.
Qed.

Lemma find_app_none {A} (p : A -> bool) (l l' : list A) :
  find p l = None -> find p (l ++ l') = find p l'.
Proof.
  induction l as [|a l IH]; intros H; [reflexivity|].
  cbn in *. destruct (p a); [discriminate|auto].
Qed.

Lemma jwt_verify_ok E token secret nowMs payload :
  jwt_verify E token secret nowMs = Ok payload ->
  exists e, token = Jwt payload (hmac E secret payload)
            /\ JWTPayload.exp payload = Some e /\ nowMs / 1000 < e.
Proof.
  unfold jwt_verify. destruct token as [p sg|raw]; [|discriminate].
  destruct (String.eqb sg (hmac E secret p)) eqn:Hs; [|discriminate].
  destruct (JWTPayload.exp p) as [e|] eqn:He; [|discriminate].
  destruct (e <=? nowMs / 1000) eqn:Hle; [discriminate|].
  intros H. injection H as <-. exists e.
  apply String.eqb_eq in Hs. apply Z.leb_gt in Hle. subst sg. auto.
Qed.

Lemma jwt_verify_throws_jwt_error E token secret nowMs e :
  jwt_verify E token secret nowMs = Throw e ->
  instanceof_JsonWebTokenError e = true.
Proof.
  unfold jwt_verify. destruct token as [p sg|raw].
  - destruct (String.eqb sg (hmac E secret p)).
    + destruct (JWTPayload.exp p) as [x|].
      * destruct (x <=? nowMs / 1000); intros H; inversion H; reflexivity.
      * intros H; inversion H; reflexivity.
    + intros H; inversion H; reflexivity.
  - intros H; inversion H; reflexivity.
Qed.

(** ** Login *)

Lemma find_and_false {A} (p : A -> bool) (l : list A) :
  find (fun x => p x && false) l = None.
Proof.
  apply find_none_iff. intros x _. apply andb_false_r.
Qed.

(** The lookup of [login] selects no row, so [login] has one outcome. *)
Lemma login_eq E nowMs c info w :
  login E nowMs c info w = (Throw invalid_credentials, w).
Proof.
  unfold login, eq_null. run.
  rewrite (find_and_false
             (fun u => String.eqb (User.email u) (LoginCredentials.email c))).
  reflexivity.
Qed.

(** ** Login failures *)

(** C6.  [login] answers a missing account and a wrong password with one
    and the same error, [AppError('Invalid credentials', 401)], and leaves
    the world as it was in both runs. *)
Theorem login_failures_indistinguishable
    (E : Env) (now1 now2 : Z) (c1 c2 : LoginCredentials.t)
    (i1 i2 : option SessionInfo.t) (w1 w2 : World) (user : User.t) :
  account_by_email w1 (LoginCredentials.email c1) = None ->
  account_by_email w2 (LoginCredentials.email c2) = Some user ->
  bcrypt_compare E (LoginCredentials.password c2) (User.passwordHash user) = false ->
  login E now1 c1 i1 w1 = (Throw invalid_credentials, w1)
  /\ login E now2 c2 i2 w2 = (Throw invalid_credentials, w2)
  /\ fst (login E now1 c1 i1 w1) = fst (login E now2 c2 i2 w2).
Proof.
  intros Hnone Hsome Hpw. rewrite !login_eq. auto.
Qed.

(** C7.  The second factor is never asked for.  For an account with MFA
    enabled and a correct password, [login] without a code, or with a code
    that [verifyMfaCode] rejects, throws [AppError('Invalid credentials',
    401)], the error of a wrong password, and neither ['MFA code required']
    nor ['Invalid MFA code']: the lookup [eq(users.deletedAt, null)] has
    selected no row before the password and the code are looked at. *)
Theorem login_never_reaches_mfa_gate
    (E : Env) (nowMs : Z) (c : LoginCredentials.t)
    (info : option SessionInfo.t) (w : World) (user : User.t) :
  account_by_email w (LoginCredentials.email c) = Some user ->
  bcrypt_compare E (LoginCredentials.password c) (User.passwordHash user) = true ->
  User.mfaEnabled user = true ->
  login E nowMs c info w = (Throw invalid_credentials, w)
  /\ invalid_credentials <> mfa_required
  /\ invalid_credentials <> invalid_mfa.
Proof.
  intros _ _ _. rewrite login_eq. repeat split; discriminate.
Qed.

(** ** Registration conflicts *)

Lemma register_email_taken E nowMs data w u :
  In u (users w) ->
  User.email u = RegisterData.email data ->
  register E nowMs data w = (Throw email_conflict, w).
Proof.
  intros Hin Hmail.
  destruct (find_In_some
              (fun u => String.eqb (User.email u) (RegisterData.email data))
              (users w) u Hin) as [y Hy].
  { cbn. now apply String.eqb_eq. }
  unfold register. run. rewrite Hy. reflexivity.
Qed.

Lemma register_username_taken E nowMs data w u :
  find (fun u => String.eqb (User.email u) (RegisterData.email data)) (users w)
    = None ->
  In u (users w) ->
  User.username u = RegisterData.username data ->
  register E nowMs data w = (Throw username_conflict, w).
Proof.
  intros Hnone Hin Hname.
  destruct (find_In_some
              (fun u => String.eqb (User.username u) (RegisterData.username data))
              (users w) u Hin) as [y Hy].
  { cbn. now apply String.eqb_eq. }
  unfold register. run. rewrite Hnone, Hy. reflexivity.
Qed.

(** C8.  [register] with an email that some row of [users] already carries
    fails with [AppError('User already exists with this email', 409)],
    whatever the username, and returns the world untouched: no user row and
    no session row is written. *)
Theorem register_duplicate_email_conflict
    (E : Env) (nowMs : Z) (data : RegisterData.t) (w : World) (u : User.t) :
  In u (users w) ->
  User.email u = RegisterData.email data ->
  register E nowMs data w = (Throw email_conflict, w)
  /\ statusCode_of email_conflict = Some 409.
Proof.
  intros Hin Hmail. split; [|reflexivity].
  now apply register_email_taken with (u := u).
Qed.

(** ** Expired access tokens *)

(** C5.  A token whose [exp] is not after the clock is refused by
    [verifyToken] with [AppError('Invalid token', 401)] in every world,
    whatever the session table holds. *)
Theorem verifyToken_expired_fails
    (E : Env) (nowMs : Z) (payload : JWTPayload.t) (signature : string)
    (e : Z) (w : World) :
  JWTPayload.exp payload = Some e ->
  e <= nowMs / 1000 ->
  verifyToken E nowMs (Jwt payload signature) w = (Throw invalid_token, w).
Proof.
  intros Hexp Hle. unfold verifyToken. run. unfold jwt_verify.
  rewrite Hexp. apply Z.leb_le in Hle. rewrite Hle.
  destruct (String.eqb signature _); reflexivity.
Qed.

(** ** Numbers *)

Lemma to_double_small (z : Z) : Z.abs z < 2 ^ 53 -> to_double z = Some z.
Proof.
  intros H. unfold to_double. apply Z.ltb_lt in H. now rewrite H.
Qed.



Example to_double_ties_to_even :
  to_double 9007199254740993 = Some 9007199254740992
  /\ to_double 9007199254740995 = Some 9007199254740996.
Proof. split; reflexivity. Qed.



(** ** The operations, case by case *)

Lemma generateTokens_eq E nowMs user info w :
  generateTokens E nowMs user info w =
  match session_expiry E nowMs with
  | None => (Throw (RangeError "Invalid time value"), drawn 2 w)
  | Some t =>
      (Ok (issued_pair E nowMs user),
       mkWorld (users w)
         (userSessions w ++ [issued_session E nowMs user info t w])
         (3 + entropy w)%nat)
  end.
Proof.
  unfold generateTokens, session_expiry, issued_session, issued_pair,
    refreshPayload, accessPayload.
  run.
  destruct (valid_date _) as [t|]; reflexivity.
Qed.

Lemma generateTokens_ok E nowMs user info w toks w' :
  generateTokens E nowMs user info w = (Ok toks, w') ->
  exists t,
    session_expiry E nowMs = Some t
    /\ toks = issued_pair E nowMs user
    /\ w' = mkWorld (users w)
              (userSessions w ++ [issued_session E nowMs user info t w])
              (3 + entropy w)%nat.
Proof.
  rewrite generateTokens_eq.
  destruct (session_expiry E nowMs) as [t|]; [|discriminate].
  intros H. injection H as <- <-. eauto.
Qed.

Lemma register_eq E nowMs data w :
  register E nowMs data w =
  match find (fun u => String.eqb (User.email u) (RegisterData.email data))
             (users w) with
  | Some _ => (Throw email_conflict, w)
  | None =>
      match find (fun u => String.eqb (User.username u) (RegisterData.username data))
                 (users w) with
      | Some _ => (Throw username_conflict, w)
      | None =>
          let user := registered_user E nowMs data w in
          let w1 := mkWorld (users w ++ [user]) (userSessions w)
                      (2 + entropy w)%nat in
          match session_expiry E nowMs with
          | None => (Throw (RangeError "Invalid time value"), drawn 2 w1)
          | Some t =>
              (Ok (userWithoutPassword user, issued_pair E nowMs user),
               mkWorld (users w ++ [user])
                 (userSessions w ++ [issued_session E nowMs user None t w1])
                 (5 + entropy w)%nat)
          end
      end
  end.
Proof.
  unfold register. run.
  destruct (find (fun u => String.eqb (User.email u) (RegisterData.email data))
              (users w)); [reflexivity|].
  destruct (find (fun u => String.eqb (User.username u) (RegisterData.username data))
              (users w)); [reflexivity|].
  cbn [users userSessions entropy]. rewrite generateTokens_eq.
  destruct (session_expiry E nowMs); reflexivity.
Qed.

Lemma register_ok E nowMs data w pu toks w' :
  register E nowMs data w = (Ok (pu, toks), w') ->
  let user := registered_user E nowMs data w in
  find (fun u => String.eqb (User.email u) (RegisterData.email data)) (users w) = None
  /\ find (fun u => String.eqb (User.username u) (RegisterData.username data))
          (users w) = None
  /\ pu = userWithoutPassword user
  /\ toks = issued_pair E nowMs user
  /\ exists t,
       session_expiry E nowMs = Some t
       /\ w' = mkWorld (users w ++ [user])
                 (userSessions w ++
                    [issued_session E nowMs user None t
                       (mkWorld (users w ++ [user]) (userSessions w)
                          (2 + entropy w)%nat)])
                 (5 + entropy w)%nat.
Proof.
  rewrite register_eq.
  destruct (find (fun u => String.eqb (User.email u) (RegisterData.email data))
              (users w)) as [x|] eqn:He; [discriminate|].
  destruct (find (fun u => String.eqb (User.username u) (RegisterData.username data))
              (users w)) as [x|] eqn:Hu; [discriminate|].
  cbv zeta. destruct (session_expiry E nowMs) as [t|]; [|discriminate].
  intros H. injection H as <- <- <-. repeat split; eauto.
Qed.

(** What [verifyToken] does with a token that [jwt.verify] accepts. *)
Lemma verifyToken_verified E nowMs token w payload :
  jwt_verify E token (Config.secret (config E)) nowMs = Ok payload ->
  verifyToken E nowMs token w =
  (match session_by_token w (JWTPayload.sub payload) (next_digest E w token) with
   | None => Throw session_invalid
   | Some s =>
       if Session.expiresAt s <? nowMs then Throw session_invalid else Ok payload
   end, drawn 1 w).
Proof.
  intros Hv. unfold verifyToken, session_by_token, next_digest, drawn. run.
  rewrite Hv. cbn [userSessions].
  destruct (find _ (userSessions w)) as [s|]; [|reflexivity].
  destruct (Session.expiresAt s <? nowMs); reflexivity.
Qed.

Lemma verifyToken_eq E nowMs token w :
  verifyToken E nowMs token w =
  match jwt_verify E token (Config.secret (config E)) nowMs with
  | Throw _ => (Throw invalid_token, w)
  | Ok payload =>
      (match session_by_token w (JWTPayload.sub payload) (next_digest E w token) with
       | None => Throw session_invalid
       | Some s =>
           if Session.expiresAt s <? nowMs then Throw session_invalid else Ok payload
       end, drawn 1 w)
  end.
Proof.
  destruct (jwt_verify E token (Config.secret (config E)) nowMs) as [payload|err]
    eqn:Hv.
  - now apply verifyToken_verified.
  - unfold verifyToken. run. rewrite Hv.
    now rewrite (jwt_verify_throws_jwt_error E token _ nowMs err Hv).
Qed.

Lemma refreshToken_eq E nowMs token w :
  refreshToken E nowMs token w =
  match jwt_verify E token (Config.refreshSecret (config E)) nowMs with
  | Throw _ => (Throw invalid_refresh_token, w)
  | Ok payload =>
      match session_by_refresh w (JWTPayload.sub payload) (next_digest E w token) with
      | None => (Throw invalid_refresh_token, drawn 1 w)
      | Some session =>
          if Session.expiresAt session <? nowMs
          then (Throw invalid_refresh_token, drawn 1 w)
          else
            match find (fun u => String.eqb (User.id u) (JWTPayload.sub payload))
                       (users w) with
            | None => (Throw invalid_refresh_token, drawn 1 w)
            | Some user =>
                match session_expiry E nowMs with
                | None => (Throw invalid_refresh_token, drawn 3 w)
                | Some t =>
                    (Ok (issued_pair E nowMs user),
                     mkWorld (users w)
                       (map (rotate E nowMs user w session)
                          (userSessions w ++
                             [issued_session E nowMs user None t (drawn 1 w)]))
                       (6 + entropy w)%nat)
                end
            end
      end
  end.
Proof.
  unfold refreshToken, session_by_refresh, next_digest, drawn. run.
  destruct (jwt_verify E token (Config.refreshSecret (config E)) nowMs)
    as [payload|err]; [|reflexivity].
  cbn [users userSessions entropy].
  destruct (find _ (userSessions w)) as [session|]; [|reflexivity].
  destruct (Session.expiresAt session <? nowMs); [reflexivity|].
  cbn [users userSessions entropy].
  destruct (find _ (users w)) as [user|]; [|reflexivity].
  rewrite generateTokens_eq. unfold rotate, rotated_tokenHash, rotated_refreshTokenHash.
  destruct (session_expiry E nowMs) as [t|]; reflexivity.
Qed.

(** A refresh that fails reports one error and writes to neither table. *)
Lemma refreshToken_failure E nowMs token w err w' :
  refreshToken E nowMs token w = (Throw err, w') ->
  err = invalid_refresh_token /\ same_tables w w'.
Proof.
  rewrite refreshToken_eq. unfold same_tables.
  destruct (jwt_verify E token _ nowMs) as [payload|e0].
  2:{ intros H. injection H as <- <-. auto. }
  destruct (session_by_refresh w _ _) as [session|].
  2:{ intros H. injection H as <- <-. auto. }
  destruct (Session.expiresAt session <? nowMs).
  { intros H. injection H as <- <-. auto. }
  destruct (find _ (users w)) as [user|].
  2:{ intros H. injection H as <- <-. auto. }
  destruct (session_expiry E nowMs) as [t|]; [discriminate|].
  intros H. injection H as <- <-. auto.
Qed.

Lemma refreshToken_success E nowMs token w toks w' :
  refreshToken E nowMs token w = (Ok toks, w') ->
  exists payload session user t,
    jwt_verify E token (Config.refreshSecret (config E)) nowMs = Ok payload
    /\ session_by_refresh w (JWTPayload.sub payload) (next_digest E w token)
       = Some session
    /\ nowMs <= Session.expiresAt session
    /\ find (fun u => String.eqb (User.id u) (JWTPayload.sub payload)) (users w)
       = Some user
    /\ toks = issued_pair E nowMs user
    /\ w' = mkWorld (users w)
              (map (rotate E nowMs user w session)
                 (userSessions w ++ [issued_session E nowMs user None t (drawn 1 w)]))
              (6 + entropy w)%nat.
Proof.
  rewrite refreshToken_eq.
  destruct (jwt_verify E token _ nowMs) as [payload|e0] eqn:Hv; [|discriminate].
  destruct (session_by_refresh w _ _) as [session|] eqn:Hs; [|discriminate].
  destruct (Session.expiresAt session <? nowMs) eqn:Hexp; [discriminate|].
  destruct (find _ (users w)) as [user|] eqn:Hu; [|discriminate].
  destruct (session_expiry E nowMs) as [t|]; [|discriminate].
  intros H. injection H as <- <-.
  exists payload, session, user, t. apply Z.ltb_ge in Hexp.
  repeat split; try reflexivity; assumption.
Qed.

Lemma logout_eq userId tokenHash w :
  logout userId tokenHash w =
  (Ok tt,
   mkWorld (users w)
     (filter (fun s => negb (String.eqb (Session.userId s) userId
                             && String.eqb (Session.tokenHash s) tokenHash))
        (userSessions w))
     (entropy w)).
Proof. unfold logout. run. reflexivity. Qed.

(** ** Digests with a salt of their own *)

Lemma drawn_digest_later E w w' digest :
  drawn_digest E w digest -> (entropy w <= entropy w')%nat ->
  drawn_digest E w' digest.
Proof.
  intros (s & rounds & n & Hn & ->) Hle. exists s, rounds, n. split; [lia|reflexivity].
Qed.

Lemma digests_drawn_later E w w' :
  digests_drawn E w -> userSessions w' = userSessions w ->
  (entropy w <= entropy w')%nat ->
  digests_drawn E w'.
Proof.
  intros Hd Hs Hle s Hin. rewrite Hs in Hin. destruct (Hd s Hin) as [Ht Hr].
  split.
  - now apply drawn_digest_later with (w := w).
  - intros h Hh. apply drawn_digest_later with (w := w); auto.
Qed.

Lemma digests_drawn_snoc E w w' row :
  digests_drawn E w ->
  userSessions w' = (userSessions w ++ [row])%list ->
  (entropy w <= entropy w')%nat ->
  drawn_digest E w' (Session.tokenHash row) ->
  (forall h, Session.refreshTokenHash row = Some h -> drawn_digest E w' h) ->
  digests_drawn E w'.
Proof.
  intros Hd Hs Hle Ht Hr s Hin. rewrite Hs in Hin.
  apply in_app_or in Hin. destruct Hin as [Hin|[<-|[]]].
  - destruct (Hd s Hin) as [Ht' Hr']. split.
    + now apply drawn_digest_later with (w := w).
    + intros h Hh. apply drawn_digest_later with (w := w); auto.
  - split; assumption.
Qed.

Lemma issued_session_drawn E nowMs user info t w w' :
  (2 + entropy w <= entropy w')%nat ->
  drawn_digest E w' (Session.tokenHash (issued_session E nowMs user info t w))
  /\ forall h,
       Session.refreshTokenHash (issued_session E nowMs user info t w) = Some h ->
       drawn_digest E w' h.
Proof.
  intros Hle. split.
  - eexists _, _, (entropy w). split; [lia|reflexivity].
  - intros h Hh. cbn in Hh. injection Hh as <-.
    eexists _, _, (1 + entropy w)%nat. split; [lia|reflexivity].
Qed.

(** A digest made now is none of those stored. *)
Lemma fresh_digest_not_stored E w s rounds :
  digests_salted E -> digests_drawn E w ->
  forall row, In row (userSessions w) ->
    Session.tokenHash row <> bcrypt_digest E s rounds (gen_salt E (entropy w))
    /\ Session.refreshTokenHash row
       <> Some (bcrypt_digest E s rounds (gen_salt E (entropy w))).
Proof.
  intros Hsalt Hd row Hin. destruct (Hd row Hin) as [Ht Hr]. split.
  - destruct Ht as (s0 & r0 & n & Hn & ->). apply Hsalt. lia.
  - intros Heq. destruct (Hr _ Heq) as (s0 & r0 & n & Hn & H).
    symmetry in H. revert H. apply Hsalt. lia.
Qed.

Lemma session_by_token_fresh E w userId token :
  digests_salted E -> digests_drawn E w ->
  session_by_token w userId (next_digest E w token) = None.
Proof.
  intros Hsalt Hd. apply find_none_iff. intros row Hin.
  destruct (fresh_digest_not_stored E w (token_string E token) 10 Hsalt Hd row Hin)
    as [Ht _].
  apply andb_false_intro2. now apply String.eqb_neq.
Qed.

Lemma session_by_refresh_fresh E w userId token :
  digests_salted E -> digests_drawn E w ->
  session_by_refresh w userId (next_digest E w token) = None.
Proof.
  intros Hsalt Hd. apply find_none_iff. intros row Hin.
  destruct (fresh_digest_not_stored E w (token_string E token) 10 Hsalt Hd row Hin)
    as [_ Hr].
  apply andb_false_intro2. unfold eq_opt.
  destruct (Session.refreshTokenHash row) as [h|]; [|reflexivity].
  apply String.eqb_neq. intros ->. now apply Hr.
Qed.

(** With salted digests no token is accepted, neither by [verifyToken] nor
    by [refreshToken]. *)
Lemma verifyToken_salted E nowMs token w :
  digests_salted E -> digests_drawn E w ->
  verifyToken E nowMs token w =
  match jwt_verify E token (Config.secret (config E)) nowMs with
  | Throw _ => (Throw invalid_token, w)
  | Ok _ => (Throw session_invalid, drawn 1 w)
  end.
Proof.
  intros Hsalt Hd. rewrite verifyToken_eq.
  destruct (jwt_verify E token _ nowMs) as [payload|e0]; [|reflexivity].
  now rewrite (session_by_token_fresh E w _ token Hsalt Hd).
Qed.

Lemma refreshToken_salted E nowMs token w :
  digests_salted E -> digests_drawn E w ->
  refreshToken E nowMs token w =
  match jwt_verify E token (Config.refreshSecret (config E)) nowMs with
  | Throw _ => (Throw invalid_refresh_token, w)
  | Ok _ => (Throw invalid_refresh_token, drawn 1 w)
  end.
Proof.
  intros Hsalt Hd. rewrite refreshToken_eq.
  destruct (jwt_verify E token _ nowMs) as [payload|e0]; [|reflexivity].
  now rewrite (session_by_refresh_fresh E w _ token Hsalt Hd).
Qed.

(** Every call of the service keeps the stored digests drawn. *)
Lemma register_keeps_digests_drawn E nowMs data w :
  digests_drawn E w -> digests_drawn E (snd (register E nowMs data w)).
Proof.
  intros Hd. rewrite register_eq.
  destruct (find _ (users w)); [exact Hd|].
  destruct (find _ (users w)); [exact Hd|].
  cbv zeta. destruct (session_expiry E nowMs) as [t|]; cbn [snd].
  - apply digests_drawn_snoc
      with (w := w)
           (row := issued_session E nowMs (registered_user E nowMs data w) None t
                     (mkWorld (users w ++ [registered_user E nowMs data w])
                        (userSessions w) (2 + entropy w)%nat));
      try reflexivity; try exact Hd; cbn [entropy]; try lia.
    + apply issued_session_drawn. cbn [entropy]. lia.
    + apply issued_session_drawn. cbn [entropy]. lia.
  - apply digests_drawn_later with (w := w); [exact Hd|reflexivity|cbn; lia].
Qed.

Lemma drawn_keeps_digests_drawn E n w :
  digests_drawn E w -> digests_drawn E (drawn n w).
Proof.
  intros Hd. apply digests_drawn_later with (w := w);
    [exact Hd|reflexivity|cbn; lia].
Qed.

Lemma refreshToken_keeps_digests_drawn E nowMs token w :
  digests_drawn E w -> digests_drawn E (snd (refreshToken E nowMs token w)).
Proof.
  intros Hd. rewrite refreshToken_eq.
  destruct (jwt_verify E token _ nowMs) as [payload|e0]; [|exact Hd].
  destruct (session_by_refresh w _ _) as [session|];
    [|now apply drawn_keeps_digests_drawn].
  destruct (Session.expiresAt session <? nowMs);
    [now apply drawn_keeps_digests_drawn|].
  destruct (find _ (users w)) as [user|]; [|now apply drawn_keeps_digests_drawn].
  destruct (session_expiry E nowMs) as [t|];
    [|now apply drawn_keeps_digests_drawn].
  cbn [snd]. intros s Hin. cbn [userSessions] in Hin. apply in_map_iff in Hin.
  destruct Hin as (x & <- & Hx).
  set (w' := mkWorld (users w)
               (map (rotate E nowMs user w session)
                  (userSessions w ++ [issued_session E nowMs user None t (drawn 1 w)]))
               (6 + entropy w)%nat).
  assert (Hxd : drawn_digest E w' (Session.tokenHash x)
                /\ forall h, Session.refreshTokenHash x = Some h ->
                     drawn_digest E w' h).
  { apply in_app_or in Hx. destruct Hx as [Hx|[<-|[]]].
    - destruct (Hd x Hx) as [Ht Hr]. split.
      + apply drawn_digest_later with (w := w); [exact Ht|cbn; lia].
      + intros h Hh. apply drawn_digest_later with (w := w); [auto|cbn; lia].
    - apply issued_session_drawn. cbn. lia. }
  unfold rotate. destruct (String.eqb (Session.id x) (Session.id session));
    [|exact Hxd].
  cbn [Session.tokenHash Session.refreshTokenHash]. split.
  - eexists _, _, (4 + entropy w)%nat. split; [cbn; lia|reflexivity].
  - intros h Hh. injection Hh as <-.
    eexists _, _, (5 + entropy w)%nat. split; [cbn; lia|reflexivity].
Qed.

Lemma logout_keeps_digests_drawn E userId tokenHash w :
  digests_drawn E w -> digests_drawn E (snd (logout userId tokenHash w)).
Proof.
  intros Hd. rewrite logout_eq. cbn [snd]. intros s Hin.
  cbn [userSessions] in Hin. apply filter_In in Hin. destruct Hin as [Hin _].
  destruct (Hd s Hin) as [Ht Hr]. split.
  - destruct Ht as (s0 & r0 & n & Hn & ->). exists s0, r0, n. auto.
  - intros h Hh. destruct (Hr h Hh) as (s0 & r0 & n & Hn & ->).
    exists s0, r0, n. auto.
Qed.

Lemma verifyToken_keeps_digests_drawn E nowMs token w :
  digests_drawn E w -> digests_drawn E (snd (verifyToken E nowMs token w)).
Proof.
  intros Hd. rewrite verifyToken_eq.
  destruct (jwt_verify E token _ nowMs) as [payload|e0]; [|exact Hd].
  now apply drawn_keeps_digests_drawn.
Qed.

Lemma step_keeps_digests_drawn E w w' :
  step E w w' -> digests_drawn E w -> digests_drawn E w'.
Proof.
  intros Hstep Hd. destruct Hstep.
  - now apply register_keeps_digests_drawn.
  - now rewrite login_eq.
  - now apply refreshToken_keeps_digests_drawn.
  - now apply logout_keeps_digests_drawn.
  - now apply verifyToken_keeps_digests_drawn.
Qed.

Lemma reachable_digests_drawn E w : reachable E w -> digests_drawn E w.
Proof.
  induction 1 as [|w w' _ IH Hstep].
  - intros s [].
  - exact (step_keeps_digests_drawn E w w' Hstep IH).
Qed.

(** ** Registration followed by login *)

(** C1.  After a [register] that succeeded, [login] with the same email and
    password is refused: it throws [AppError('Invalid credentials', 401)]
    and returns the world as it was, although the account is in [users]
    with no tombstone, no second factor and a password hash that
    [bcrypt.compare] accepts.  The lookup of [login] adds
    [eq(users.deletedAt, null)], which holds of no row. *)
Theorem login_after_register_refused
    (E : Env) (nowMs : Z) (data : RegisterData.t) (w w1 : World)
    (pu : PublicUser.t) (toks : TokenPair.t) :
  bcrypt_sound E ->
  register E nowMs data w = (Ok (pu, toks), w1) ->
  forall (nowMs' : Z) (mfaCode : option string) (info : option SessionInfo.t),
    login E nowMs'
      (LoginCredentials.mk (RegisterData.email data) (RegisterData.password data)
         mfaCode) info w1 = (Throw invalid_credentials, w1)
    /\ exists user,
         account_by_email w1 (RegisterData.email data) = Some user
         /\ userWithoutPassword user = pu
         /\ User.mfaEnabled user = false
         /\ bcrypt_compare E (RegisterData.password data) (User.passwordHash user)
            = true.
Proof.
  intros Hb Hreg nowMs' mfaCode info. split; [apply login_eq|].
  destruct (register_ok E nowMs data w pu toks w1 Hreg)
    as (Hmail & _ & -> & _ & t & _ & ->).
  exists (registered_user E nowMs data w).
  split; [|split; [reflexivity|split; [reflexivity|apply Hb]]].
  unfold account_by_email. cbn [users]. rewrite find_app_none.
  - cbn. now rewrite String.eqb_refl.
  - apply find_none_iff. intros x Hx.
    now rewrite (proj1 (find_none_iff _ _) Hmail x Hx).
Qed.

(** ** Verifying an access token *)

(** C3.  With digests salted at every call, the access token [register]
    has just issued is refused.  While its own [exp] is ahead of the clock,
    [verifyToken] throws [AppError('Token expired or invalid', 401)],
    although [userSessions] holds the session row written with the token:
    a row of the account whose [tokenHash] is a digest of this token and
    whose [expiresAt] is the expiry of the session.  The lookup compares
    that stored digest with a digest computed anew. *)
Theorem verifyToken_refuses_issued_token
    (E : Env) (nowMs0 : Z) (data : RegisterData.t) (w w1 : World)
    (pu : PublicUser.t) (toks : TokenPair.t) :
  digests_salted E ->
  digests_drawn E w ->
  register E nowMs0 data w = (Ok (pu, toks), w1) ->
  forall (nowMs : Z) (payload : JWTPayload.t) (e : Z),
    jwt_decode (TokenPair.accessToken toks) = Some payload ->
    JWTPayload.exp payload = Some e ->
    nowMs / 1000 < e ->
    verifyToken E nowMs (TokenPair.accessToken toks) w1
      = (Throw session_invalid, drawn 1 w1)
    /\ JWTPayload.sub payload = PublicUser.id pu
    /\ exists s n,
         In s (userSessions w1)
         /\ Session.userId s = PublicUser.id pu
         /\ Session.tokenHash s
            = bcrypt_digest E (token_string E (TokenPair.accessToken toks)) 10
                (gen_salt E n)
         /\ session_expiry E nowMs0 = Some (Session.expiresAt s).
Proof.
  intros Hsalt Hd Hreg nowMs payload e Hdec Hexp Hlt.
  assert (Hd1 : digests_drawn E w1).
  { pose proof (register_keeps_digests_drawn E nowMs0 data w Hd) as H.
    now rewrite Hreg in H. }
  destruct (register_ok E nowMs0 data w pu toks w1 Hreg)
    as (_ & _ & -> & -> & t & Ht & ->).
  cbn in Hdec. injection Hdec as <-.
  set (user := registered_user E nowMs0 data w) in *.
  assert (Hv : jwt_verify E (TokenPair.accessToken (issued_pair E nowMs0 user))
                 (Config.secret (config E)) nowMs
               = Ok (accessPayload E nowMs0 user)).
  { unfold issued_pair, jwt_sign, jwt_verify. cbn [TokenPair.accessToken].
    rewrite String.eqb_refl, Hexp.
    apply Z.leb_gt in Hlt. rewrite Hlt. reflexivity. }
  split; [|split; [reflexivity|]].
  - rewrite (verifyToken_salted E nowMs _ _ Hsalt Hd1), Hv. reflexivity.
  - eexists _, _. split; [cbn [userSessions]; apply in_or_app; right; now left|].
    split; [reflexivity|]. split; [reflexivity|]. exact Ht.
Qed.

(** ** Logout *)

(** After a [logout], a token that [jwt.verify] accepts is refused as soon
    as the rows its digest could select were among those deleted. *)
Lemma verifyToken_after_logout_selected
    (E : Env) (userId tokenHash : string) (w w1 : World) :
  logout userId tokenHash w = (Ok tt, w1) ->
  forall (nowMs : Z) (token : jwt) (payload : JWTPayload.t),
    jwt_verify E token (Config.secret (config E)) nowMs = Ok payload ->
    JWTPayload.sub payload = userId ->
    (forall s, In s (userSessions w) ->
       Session.userId s = userId ->
       Session.tokenHash s = next_digest E w1 token ->
       Session.tokenHash s = tokenHash) ->
    verifyToken E nowMs token w1 = (Throw session_invalid, drawn 1 w1).
Proof.
  intros Hout nowMs token payload Hv Hsub Hremoved.
  rewrite (verifyToken_verified E nowMs token w1 payload Hv).
  rewrite logout_eq in Hout. injection Hout as <-.
  match goal with
  | |- (match ?f with _ => _ end, _) = _ => assert (Hnone : f = None)
  end.
  { apply find_none_iff. intros s Hin. cbn [userSessions] in Hin.
    apply filter_In in Hin. destruct Hin as [Hin Hkeep].
    destruct (String.eqb (Session.userId s) (JWTPayload.sub payload)) eqn:Hu;
      [|reflexivity].
    cbn [andb].
    match goal with
    | |- String.eqb ?a ?b = false => destruct (String.eqb a b) eqn:Ht
    end; [|reflexivity].
    apply String.eqb_eq in Hu. apply String.eqb_eq in Ht.
    rewrite Hsub in Hu. pose proof (Hremoved s Hin Hu Ht) as Hh.
    rewrite Hu, Hh, !String.eqb_refl in Hkeep. discriminate Hkeep. }
  now rewrite Hnone.
Qed.

(** C4.  [logout] deletes the rows of the account that carry the given
    access-token digest.  Take a token of that account whose session has
    been removed by it: every row of the account that stored a digest of
    the token carried the digest that was logged out.  Then [verifyToken]
    refuses the token with [AppError('Token expired or invalid', 401)],
    also when [jwt.verify] still accepts it, its own [exp] being ahead of
    the clock.  This holds in every environment, whether [bcrypt.hash]
    salts each digest anew or not. *)
Theorem verifyToken_after_logout_fails
    (E : Env) (userId tokenHash : string) (w w1 : World) :
  logout userId tokenHash w = (Ok tt, w1) ->
  forall (nowMs : Z) (token : jwt) (payload : JWTPayload.t),
    jwt_verify E token (Config.secret (config E)) nowMs = Ok payload ->
    JWTPayload.sub payload = userId ->
    (forall s, In s (userSessions w) ->
       Session.userId s = userId ->
       digest_of_token E token (Session.tokenHash s) ->
       Session.tokenHash s = tokenHash) ->
    verifyToken E nowMs token w1 = (Throw session_invalid, drawn 1 w1)
    /\ statusCode_of session_invalid = Some 401.
Proof.
  intros Hout nowMs token payload Hv Hsub Hremoved. split; [|reflexivity].
  apply (verifyToken_after_logout_selected E userId tokenHash w w1 Hout
           nowMs token payload Hv Hsub).
  intros s Hin Hu Ht. apply (Hremoved s Hin Hu).
  exists 10, (entropy w1). exact Ht.
Qed.

(** ** Secrets *)

(** C9.  [generateTokens] signs the access token with [config.auth.jwt.secret]
    and the refresh token with [config.auth.jwt.refreshSecret].  When the
    two secrets differ (and the MAC separates keys), [jwt.verify] rejects
    each token under the other secret, so [verifyToken] refuses a refresh
    token and [refreshToken] refuses an access token. *)
Theorem tokens_signed_with_distinct_secrets
    (E : Env) (nowMs : Z) (user : User.t) (info : option SessionInfo.t)
    (w w1 : World) (toks : TokenPair.t) :
  hmac_key_separating E ->
  Config.secret (config E) <> Config.refreshSecret (config E) ->
  generateTokens E nowMs user info w = (Ok toks, w1) ->
  TokenPair.accessToken toks
    = jwt_sign E (accessPayload E nowMs user) (Config.secret (config E))
  /\ TokenPair.refreshToken toks
     = jwt_sign E (refreshPayload E nowMs user) (Config.refreshSecret (config E))
  /\ forall (nowMs' : Z) (w' : World),
       jwt_verify E (TokenPair.refreshToken toks) (Config.secret (config E)) nowMs'
         = Throw (JsonWebTokenError "invalid signature")
       /\ jwt_verify E (TokenPair.accessToken toks)
            (Config.refreshSecret (config E)) nowMs'
          = Throw (JsonWebTokenError "invalid signature")
       /\ verifyToken E nowMs' (TokenPair.refreshToken toks) w'
          = (Throw invalid_token, w')
       /\ refreshToken E nowMs' (TokenPair.accessToken toks) w'
          = (Throw invalid_refresh_token, w').
Proof.
  intros Hsep Hne Hgen.
  apply generateTokens_ok in Hgen. destruct Hgen as (t & _ & -> & _).
  split; [reflexivity|]. split; [reflexivity|].
  intros nowMs' w'.
  assert (H1 : String.eqb
                 (hmac E (Config.refreshSecret (config E)) (refreshPayload E nowMs user))
                 (hmac E (Config.secret (config E)) (refreshPayload E nowMs user))
               = false).
  { apply String.eqb_neq. intros H. apply Hsep in H. congruence. }
  assert (H2 : String.eqb
                 (hmac E (Config.secret (config E)) (accessPayload E nowMs user))
                 (hmac E (Config.refreshSecret (config E)) (accessPayload E nowMs user))
               = false).
  { apply String.eqb_neq. intros H. apply Hsep in H. congruence. }
  assert (V1 : jwt_verify E (TokenPair.refreshToken (issued_pair E nowMs user))
                 (Config.secret (config E)) nowMs'
               = Throw (JsonWebTokenError "invalid signature")).
  { cbn. now rewrite H1. }
  assert (V2 : jwt_verify E (TokenPair.accessToken (issued_pair E nowMs user))
                 (Config.refreshSecret (config E)) nowMs'
               = Throw (JsonWebTokenError "invalid signature")).
  { cbn. now rewrite H2. }
  repeat split; try assumption.
  - unfold verifyToken. run. now rewrite V1.
  - unfold refreshToken. run. now rewrite V2.
Qed.

(** ** Refresh-token rotation *)


(** ** Soft-deleted accounts *)

(** C10 (as amended).  [login] never returns an account with a tombstone,
    and fails with the credentials error when every account with the email
    has one.  [register] does count such an account: its email and its
    username stay taken, and registering either fails with a 409 and writes
    nothing. *)
Theorem soft_deleted_hidden_from_login_only
    (E : Env) (w : World) (u : User.t) :
  In u (users w) ->
  User.deletedAt u <> None ->
  (forall nowMs c info pu toks w',
      login E nowMs c info w = (Ok (pu, toks), w') ->
      PublicUser.deletedAt pu = None /\ pu <> userWithoutPassword u)
  /\ (forall nowMs c info,
        (forall u', In u' (users w) ->
                    User.email u' = LoginCredentials.email c ->
                    User.deletedAt u' <> None) ->
        login E nowMs c info w = (Throw invalid_credentials, w))
  /\ (forall nowMs data,
        User.email u = RegisterData.email data ->
        register E nowMs data w = (Throw email_conflict, w))
  /\ (forall nowMs data,
        (forall u', In u' (users w) -> User.email u' <> RegisterData.email data) ->
        User.username u = RegisterData.username data ->
        register E nowMs data w = (Throw username_conflict, w)).
Proof.
  intros Hin Hdel. split; [|split; [|split]].
  - intros nowMs c info pu toks w' Hlogin.
    rewrite login_eq in Hlogin. discriminate Hlogin.
  - intros nowMs c info _. apply login_eq.
  - intros nowMs data Hmail. now apply register_email_taken with (u := u).
  - intros nowMs data Hfree Hname.
    apply register_username_taken with (u := u); try assumption.
    apply find_none_iff. intros x Hx. apply String.eqb_neq. now apply Hfree.
Qed.

(** ** The reference environment meets the contracts *)

Lemma demo_bcrypt_sound : bcrypt_sound demo_env.
Proof. intros s rounds n. cbn. apply String.eqb_refl. Qed.

Lemma append_inj_r (s a b : string) : (s ++ a = s ++ b)%string -> a = b.
Proof.
  induction s as [|c s IH]; cbn; intros H; [exact H|].
  injection H as H. auto.
Qed.

Lemma demo_hmac_key_separating : hmac_key_separating demo_env.
Proof.
  intros k k' payload H. cbn in H. unfold demo_hmac in H.
  apply append_inj_r in H. now apply append_inj_r in H.
Qed.

Lemma demo_secrets_differ :
  Config.secret (config demo_env) <> Config.refreshSecret (config demo_env).
Proof. apply String.eqb_neq. reflexivity. Qed.

Lemma alice_refresh_run :
  refreshToken demo_env 1005000 (TokenPair.refreshToken alice_tokens) world_alice
  = (Ok alice_new_tokens, world_refreshed).
Proof. vm_compute. reflexivity. Qed.

(** C10, counterexample.  Bob's account carries a tombstone and no other
    account has his email, yet registering that email under another
    username fails with the email conflict. *)
Lemma soft_deleted_email_stays_taken : ~ soft_deleted_excluded demo_env.
Proof.
  intros H.
  destruct (H world_carol_bob bob) as (_ & _ & Hreg).
  - right. left. reflexivity.
  - discriminate.
  - destruct (Hreg 2000000 bobby) with (w' := world_carol_bob) as [Hn _].
    + intros u' [<-|[<-|[]]] Hd.
      * split; apply String.eqb_neq; reflexivity.
      * discriminate.
    + apply Hn. vm_compute. reflexivity.
Qed.

(** ** The salted environment meets the contracts *)

Lemma salted_bcrypt_sound : bcrypt_sound salted_env.
Proof.
  intros s rounds n. cbn. unfold salted_compare, demo_digest.
  induction n as [|n IH]; cbn; [apply String.eqb_refl|exact IH].
Qed.

Lemma unary_salt_inj (n m : nat) (s s' : string) :
  (unary_salt n ++ s = unary_salt m ++ s')%string -> n = m.
Proof.
  revert m. induction n as [|n IH]; intros [|m]; cbn; intros H.
  - reflexivity.
  - discriminate H.
  - discriminate H.
  - injection H as H. f_equal. now apply IH.
Qed.

Lemma salted_digests_salted : digests_salted salted_env.
Proof.
  intros s s' rounds rounds' n m Hne H. cbn in H. unfold demo_digest in H.
  apply Hne. now apply unary_salt_inj with (s := s) (s' := s').
Qed.

Lemma empty_world_digests_drawn E : digests_drawn E empty_world.
Proof. intros s []. Qed.

Lemma alice_register_salted_run :
  register salted_env 1000000 alice empty_world
  = (Ok (alice_account, alice_tokens), world_alice_salted).
Proof. vm_compute. reflexivity. Qed.

(** ** An observation on the reference runs *)

(** [refreshToken] selects the account by id alone: where the digest of a
    token can be recomputed and the session is found, a tombstone does not
    stop it. *)
Example refresh_ignores_tombstone :
  fst (refreshToken demo_env 1005000 (TokenPair.refreshToken alice_tokens)
         world_alice_deleted) = Ok alice_new_tokens.
Proof. vm_compute. reflexivity. Qed.

(** ** The theorems at work on the reference environments *)

(** Alice logs in half a second after registering, and is refused. *)
Lemma login_after_register_refused_demo :
  login salted_env 1000500 (alice_credentials None) None world_alice_salted
    = (Throw invalid_credentials, world_alice_salted)
  /\ exists user,
       account_by_email world_alice_salted "alice@x.com" = Some user
       /\ userWithoutPassword user = alice_account
       /\ User.mfaEnabled user = false
       /\ bcrypt_compare salted_env "pw123456789012345678901234567890"
            (User.passwordHash user) = true.
Proof.
  exact (login_after_register_refused salted_env 1000000 alice empty_world
           world_alice_salted alice_account alice_tokens salted_bcrypt_sound
           alice_register_salted_run 1000500 None None).
Defined.


(** Alice's access token, presented half a second after it was issued; her
    one session row runs for a week. *)
Lemma verifyToken_refuses_issued_token_demo :
  (verifyToken salted_env 1000500 (TokenPair.accessToken alice_tokens)
     world_alice_salted = (Throw session_invalid, drawn 1 world_alice_salted)
   /\ JWTPayload.sub
        (accessPayload salted_env 1000000
           (registered_user salted_env 1000000 alice empty_world))
      = PublicUser.id alice_account
   /\ exists s n,
        In s (userSessions world_alice_salted)
        /\ Session.userId s = PublicUser.id alice_account
        /\ Session.tokenHash s
           = bcrypt_digest salted_env
               (token_string salted_env (TokenPair.accessToken alice_tokens)) 10
               (gen_salt salted_env n)
        /\ session_expiry salted_env 1000000 = Some (Session.expiresAt s))
  /\ session_expiry salted_env 1000000 = Some 605800000.
Proof.
  split; [|reflexivity].
  apply (verifyToken_refuses_issued_token salted_env 1000000 alice empty_world
           world_alice_salted alice_account alice_tokens salted_digests_salted
           (empty_world_digests_drawn salted_env) alice_register_salted_run
           1000500
           (accessPayload salted_env 1000000
              (registered_user salted_env 1000000 alice empty_world))
           1900 eq_refl eq_refl).
  reflexivity.
Defined.

(** Alice logs out with the digest her session row stores; her access token
    is refused although it runs until second 1900: where every digest has a
    salt of its own, and where the digest of a token can be recomputed.  In
    both runs the only row that held a digest of the token is the row
    deleted. *)
Lemma verifyToken_after_logout_demo :
  (verifyToken salted_env 1000500 (TokenPair.accessToken alice_tokens)
     (snd (logout (Session.userId alice_session_salted)
             (Session.tokenHash alice_session_salted) world_alice_salted))
   = (Throw session_invalid,
      drawn 1 (snd (logout (Session.userId alice_session_salted)
                      (Session.tokenHash alice_session_salted) world_alice_salted)))
   /\ statusCode_of session_invalid = Some 401)
  /\ (verifyToken demo_env 1000500 (TokenPair.accessToken alice_tokens)
        (snd (logout (Session.userId alice_session)
                (Session.tokenHash alice_session) world_alice))
      = (Throw session_invalid,
         drawn 1 (snd (logout (Session.userId alice_session)
                         (Session.tokenHash alice_session) world_alice)))
      /\ statusCode_of session_invalid = Some 401).
Proof.
  split.
  - apply (verifyToken_after_logout_fails salted_env
             (Session.userId alice_session_salted)
             (Session.tokenHash alice_session_salted)
             world_alice_salted _ eq_refl 1000500
             (TokenPair.accessToken alice_tokens)
             (accessPayload salted_env 1000000
                (registered_user salted_env 1000000 alice empty_world))).
    + reflexivity.
    + reflexivity.
    + intros s [<-|[]] _ _. reflexivity.
  - apply (verifyToken_after_logout_fails demo_env
             (Session.userId alice_session) (Session.tokenHash alice_session)
             world_alice _ eq_refl 1000500 (TokenPair.accessToken alice_tokens)
             (accessPayload demo_env 1000000
                (registered_user demo_env 1000000 alice empty_world))).
    + reflexivity.
    + reflexivity.
    + intros s [<-|[]] _ _. reflexivity.
Defined.

(** Alice's access token at second 2000, past its [exp] of 1900, while her
    session runs for a week. *)
Lemma verifyToken_expired_demo :
  verifyToken demo_env 2000000 (TokenPair.accessToken alice_tokens) world_alice
  = (Throw invalid_token, world_alice).
Proof.
  apply (verifyToken_expired_fails demo_env 2000000 _ _ 1900 world_alice).
  - reflexivity.
  - vm_compute. discriminate.
Defined.

(** An unknown email, and Alice's email with a wrong password. *)
Lemma login_failures_demo :
  login demo_env 1000500 (LoginCredentials.mk "nobody@x.com" "pw" None) None
    world_alice = (Throw invalid_credentials, world_alice)
  /\ login demo_env 1000500 (LoginCredentials.mk "alice@x.com" "wrong" None) None
       world_alice = (Throw invalid_credentials, world_alice)
  /\ fst (login demo_env 1000500 (LoginCredentials.mk "nobody@x.com" "pw" None)
            None world_alice)
     = fst (login demo_env 1000500 (LoginCredentials.mk "alice@x.com" "wrong" None)
              None world_alice).
Proof.
  apply (login_failures_indistinguishable demo_env 1000500 1000500
           (LoginCredentials.mk "nobody@x.com" "pw" None)
           (LoginCredentials.mk "alice@x.com" "wrong" None)
           None None world_alice world_alice
           (registered_user demo_env 1000000 alice empty_world)).
  - reflexivity.
  - reflexivity.
  - reflexivity.
Defined.

(** Carol, with MFA enabled and the right password: without a code, and
    with a wrong code, she is answered as for a wrong password. *)
Lemma login_never_reaches_mfa_gate_demo :
  (login demo_env 1000 (LoginCredentials.mk "carol@x.com" "carol-password" None)
     None world_carol_bob = (Throw invalid_credentials, world_carol_bob)
   /\ invalid_credentials <> mfa_required
   /\ invalid_credentials <> invalid_mfa)
  /\ (login demo_env 1000
        (LoginCredentials.mk "carol@x.com" "carol-password" (Some "000000"))
        None world_carol_bob = (Throw invalid_credentials, world_carol_bob)
      /\ invalid_credentials <> mfa_required
      /\ invalid_credentials <> invalid_mfa).
Proof.
  split.
  - exact (login_never_reaches_mfa_gate demo_env 1000
             (LoginCredentials.mk "carol@x.com" "carol-password" None)
             None world_carol_bob carol eq_refl eq_refl eq_refl).
  - exact (login_never_reaches_mfa_gate demo_env 1000
             (LoginCredentials.mk "carol@x.com" "carol-password" (Some "000000"))
             None world_carol_bob carol eq_refl eq_refl eq_refl).
Defined.

(** Alice's email under another username. *)
Lemma register_duplicate_email_demo :
  register demo_env 1000500
    (RegisterData.mk "alice2" "alice@x.com" "pw" None None) world_alice
  = (Throw email_conflict, world_alice)
  /\ statusCode_of email_conflict = Some 409.
Proof.
  apply (register_duplicate_email_conflict demo_env 1000500
           (RegisterData.mk "alice2" "alice@x.com" "pw" None None) world_alice
           (registered_user demo_env 1000000 alice empty_world)).
  - left. reflexivity.
  - reflexivity.
Defined.

(** Alice's pair under the two secrets of backend/.env.example. *)
Lemma distinct_secrets_demo :
  verifyToken demo_env 1000500 (TokenPair.refreshToken alice_tokens) world_alice
    = (Throw invalid_token, world_alice)
  /\ refreshToken demo_env 1000500 (TokenPair.accessToken alice_tokens) world_alice
     = (Throw invalid_refresh_token, world_alice).
Proof.
  pose proof (tokens_signed_with_distinct_secrets demo_env 1000000
                (registered_user demo_env 1000000 alice empty_world) None
                (mkWorld (users world_alice) [] 2) world_alice alice_tokens
                demo_hmac_key_separating demo_secrets_differ eq_refl) as H.
  destruct H as (_ & _ & H).
  destruct (H 1000500 world_alice) as (_ & _ & Hv & Hr).
  split; assumption.
Defined.

(** Bob's tombstone: he cannot log in, and his email stays taken. *)
Lemma soft_deleted_demo :
  login demo_env 1000 (LoginCredentials.mk "bob@x.com" "bob-password" None) None
    world_carol_bob = (Throw invalid_credentials, world_carol_bob)
  /\ register demo_env 1000 bobby world_carol_bob
     = (Throw email_conflict, world_carol_bob).
Proof.
  assert (Hin : In bob (users world_carol_bob)) by (right; left; reflexivity).
  assert (Hdel : User.deletedAt bob <> None) by discriminate.
  destruct (soft_deleted_hidden_from_login_only demo_env world_carol_bob bob Hin Hdel)
    as (_ & Hlogin & Hreg & _).
  split.
  - apply Hlogin. intros u' [<-|[<-|[]]] He; [discriminate He|discriminate].
  - apply Hreg. reflexivity.
Defined.

(** * Beyond the claims *)

(** ** Lifetimes: [parseTimeToSeconds] *)

Lemma slice_init_snoc (s : string) (c : ascii) :
  slice_init (s ++ String c EmptyString) = s.
Proof.
  induction s as [|a s IH]; [reflexivity|].
  cbn. rewrite IH. destruct s; reflexivity.
Qed.

Lemma slice_last_snoc (s : string) (c : ascii) :
  slice_last (s ++ String c EmptyString) = String c EmptyString.
Proof.
  induction s as [|a s IH]; [reflexivity|].
  cbn. rewrite IH. destruct s; reflexivity.
Qed.

Lemma digit_of_decimal (c : ascii) :
  is_decimal_digit c = true ->
  digit_of c = Some (Z.of_nat (nat_of_ascii c) - 48)
  /\ Z.of_nat (nat_of_ascii c) - 48 < 10
  /\ is_space c = false
  /\ c <> "-"%char /\ c <> "+"%char /\ c <> "x"%char /\ c <> "X"%char.
Proof.
  destruct c as [[] [] [] [] [] [] [] []]; cbn; intros H;
    try discriminate H; repeat split; try reflexivity; discriminate.
Qed.

Lemma read_digits_decimal (s : string) (acc : option Z) :
  all_decimal_digits s = true ->
  read_digits 10 s acc =
  match s with
  | EmptyString => acc
  | String _ _ =>
      Some (decimal_value_from (match acc with Some a => a | None => 0 end) s)
  end.
Proof.
  revert acc. induction s as [|c s IH]; intros acc H; [reflexivity|].
  cbn [all_decimal_digits] in H. apply andb_prop in H. destruct H as [Hc Hs].
  destruct (digit_of_decimal c Hc) as (Hd & Hlt & _).
  cbn [read_digits]. rewrite Hd. apply Z.ltb_lt in Hlt. rewrite Hlt.
  rewrite (IH _ Hs). cbn [decimal_value_from].
  destruct s as [|c' s'].
  - destruct acc; reflexivity.
  - destruct acc; reflexivity.
Qed.

Lemma decimal_value_from_nonneg (s : string) (acc : Z) :
  all_decimal_digits s = true -> 0 <= acc -> 0 <= decimal_value_from acc s.
Proof.
  revert acc. induction s as [|c s IH]; intros acc H Hacc; [exact Hacc|].
  cbn [all_decimal_digits] in H. apply andb_prop in H. destruct H as [Hc Hs].
  cbn [decimal_value_from]. apply IH; [exact Hs|].
  unfold is_decimal_digit in Hc. apply andb_prop in Hc. destruct Hc as [Hlo _].
  apply Nat.leb_le in Hlo. lia.
Qed.

Lemma decimal_value_nonneg (s : string) :
  all_decimal_digits s = true -> 0 <= decimal_value s.
Proof. intros H. now apply decimal_value_from_nonneg. Qed.

(** [parseInt] of decimal digits is the double nearest to the number they
    write. *)
Lemma parseInt_decimal (s : string) :
  all_decimal_digits s = true -> s <> EmptyString ->
  parseInt s = to_double (decimal_value s).
Proof.
  intros Hs Hne. destruct s as [|c r]; [contradiction|].
  pose proof Hs as Hall. cbn [all_decimal_digits] in Hs.
  apply andb_prop in Hs. destruct Hs as [Hc Hr].
  destruct (digit_of_decimal c Hc) as (_ & _ & Hsp & Hm & Hp & _).
  assert (Hmag : forall t, all_decimal_digits t = true -> t <> EmptyString ->
            match t with
            | String "0" (String "x" r0) | String "0" (String "X" r0) =>
                read_digits 16 r0 None
            | _ => read_digits 10 t None
            end = Some (decimal_value t)).
  { intros t Ht Hnt.
    transitivity (read_digits 10 t None).
    - destruct t as [|c1 [|c2 t2]]; [reflexivity| |].
      { destruct c1 as [[] [] [] [] [] [] [] []]; reflexivity. }
      cbn [all_decimal_digits] in Ht.
      apply andb_prop in Ht. destruct Ht as [_ Ht].
      apply andb_prop in Ht. destruct Ht as [H2 _].
      destruct (digit_of_decimal c2 H2) as (_ & _ & _ & _ & _ & Hx & HX).
      destruct c1 as [[] [] [] [] [] [] [] []]; try reflexivity.
      destruct c2 as [[] [] [] [] [] [] [] []]; try reflexivity; congruence.
    - rewrite (read_digits_decimal t None Ht).
      destruct t; [contradiction|reflexivity]. }
  unfold parseInt. cbn [skip_space]. rewrite Hsp.
  assert (Hsign : match String c r with
                  | String "-" r0 => (-1, r0)
                  | String "+" r0 => (1, r0)
                  | _ => (1, String c r)
                  end = (1, String c r)).
  { destruct c as [[] [] [] [] [] [] [] []]; try reflexivity; congruence. }
  rewrite Hsign. rewrite (Hmag (String c r) Hall Hne).
  cbn [num_mul]. now rewrite Z.mul_1_l.
Qed.



(** Past 2^53 the lifetime is the nearest double, not the number written. *)
Example parseTimeToSeconds_rounds :
  parseTimeToSeconds "9007199254740993s" = Some 9007199254740992.
Proof. vm_compute. reflexivity. Qed.

(** X2.  The last character is always taken for the unit: when it is none
    of [m], [h], [d], what stands before it is read as seconds.  A lifetime
    given as a plain number of seconds so loses its last digit.  (The number
    read is below 2^53, where every integer is a double.) *)
Theorem parseTimeToSeconds_drops_last_character (s : string) (c : ascii) :
  all_decimal_digits s = true -> s <> EmptyString ->
  decimal_value s < 2 ^ 53 ->
  c <> "m"%char -> c <> "h"%char -> c <> "d"%char ->
  parseTimeToSeconds (s ++ String c EmptyString) = Some (decimal_value s).
Proof.
  intros Hs Hne Hlt Hm Hh Hd. pose proof (decimal_value_nonneg s Hs) as H0.
  unfold parseTimeToSeconds.
  rewrite slice_init_snoc, slice_last_snoc, (parseInt_decimal s Hs Hne).
  rewrite (to_double_small (decimal_value s)) by lia.
  assert (Hneq : forall d, c <> d ->
            String.eqb (String c EmptyString) (String d EmptyString) = false).
  { intros d Hcd. apply String.eqb_neq. congruence. }
  rewrite (Hneq _ Hm), (Hneq _ Hh), (Hneq _ Hd).
  destruct (String.eqb (String c EmptyString) "s"); reflexivity.
Qed.

(** X3.  A lifetime of at most one character has no number before its unit
    and is NaN. *)
Theorem parseTimeToSeconds_short_is_NaN (s : string) :
  (String.length s <= 1)%nat -> parseTimeToSeconds s = None.
Proof.
  intros Hlen. unfold parseTimeToSeconds.
  assert (Hinit : slice_init s = EmptyString).
  { destruct s as [|c [|c' r]]; try reflexivity. cbn in Hlen. lia. }
  rewrite Hinit. cbn [parseInt skip_space read_digits num_mul].
  repeat match goal with |- context [if ?b then _ else _] => destruct b end;
    reflexivity.
Qed.

(** ** The Authorization header *)

Lemma split_nonempty (sep : ascii) (s : string) : split sep s <> [].
Proof.
  destruct s as [|c r]; cbn; [discriminate|].
  destruct (Ascii.eqb c sep); [discriminate|].
  destruct (split sep r); discriminate.
Qed.

Lemma split_without (sep : ascii) (s : string) :
  has_char sep s = false -> split sep s = [s].
Proof.
  induction s as [|c r IH]; cbn; intros H; [reflexivity|].
  apply orb_false_elim in H. destruct H as [Hc Hr].
  rewrite Hc, (IH Hr). reflexivity.
Qed.

Lemma split_at_first (sep : ascii) (a b : string) :
  has_char sep a = false ->
  split sep (a ++ String sep b) = a :: split sep b.
Proof.
  induction a as [|c r IH]; cbn; intros H.
  - now rewrite Ascii.eqb_refl.
  - apply orb_false_elim in H. destruct H as [Hc Hr].
    rewrite Hc, (IH Hr). reflexivity.
Qed.

Lemma split_two (sep : ascii) (s a b : string) :
  split sep s = [a; b] ->
  s = (a ++ String sep b)%string
  /\ has_char sep a = false /\ has_char sep b = false.
Proof.
  revert a. induction s as [|c r IH]; cbn; intros a H; [discriminate|].
  destruct (Ascii.eqb c sep) eqn:Hc.
  - injection H as <- Hr. apply Ascii.eqb_eq in Hc. subst c.
    assert (Hb : has_char sep b = false /\ r = b).
    { clear IH. revert b Hr. induction r as [|d r IHr]; cbn; intros b Hr.
      - injection Hr as <-. auto.
      - destruct (Ascii.eqb d sep) eqn:Hd.
        { injection Hr as _ Hr. now destruct (split_nonempty sep r). }
        destruct (split sep r) as [|h t] eqn:Hsp.
        + now destruct (split_nonempty sep r).
        + injection Hr as <- ->. destruct (IHr h eq_refl) as [Hh ->].
          cbn. now rewrite Hd, Hh. }
    destruct Hb as [Hb ->]. auto.
  - destruct (split sep r) as [|h t] eqn:Hsp; [discriminate|].
    injection H as <- ->. destruct (IH h eq_refl) as (-> & Hh & Hb).
    cbn. rewrite Hc, Hh. auto.
Qed.

Lemma extractSchemeToken_iff (scheme authHeader token : string) :
  has_char " " scheme = false ->
  extractSchemeToken scheme authHeader = Some token <->
  authHeader = (scheme ++ String " " token)%string /\ has_char " " token = false.
Proof.
  intros Hscheme. unfold extractSchemeToken. split.
  - destruct (split " " authHeader) as [|a [|b [|c l]]] eqn:Hsp; try discriminate.
    destruct (String.eqb a scheme) eqn:Ha; [|discriminate].
    intros H. injection H as <-. apply String.eqb_eq in Ha. subst a.
    apply split_two in Hsp. tauto.
  - intros [-> Htok].
    rewrite (split_at_first " " scheme token Hscheme), (split_without " " token Htok).
    now rewrite String.eqb_refl.
Qed.

(** X4.  [extractTokenFromHeader] returns a token exactly for a header that
    is [Bearer], one space, and a token without a space; the token it
    returns is that one. *)
Theorem extractTokenFromHeader_spec (authHeader token : string) :
  extractTokenFromHeader authHeader = Some token <->
  authHeader = ("Bearer " ++ token)%string /\ has_char " " token = false.
Proof.
  unfold extractTokenFromHeader.
  rewrite (extractSchemeToken_iff "Bearer" authHeader token eq_refl).
  reflexivity.
Qed.

(** X5.  No header is read both as a user token and as a bot token. *)
Theorem bearer_and_bot_exclusive (authHeader : string) :
  extractTokenFromHeader authHeader = None
  \/ extractBotTokenFromHeader authHeader = None.
Proof.
  unfold extractTokenFromHeader, extractBotTokenFromHeader, extractSchemeToken.
  destruct (split " " authHeader) as [|a [|b [|c l]]]; auto.
  destruct (String.eqb a "Bearer") eqn:Ha; [|now left].
  apply String.eqb_eq in Ha. subst a. now right.
Qed.

(** ** What the service writes *)

Lemma NoDup_map_snoc {A B} (f : A -> B) (l : list A) (x : A) :
  NoDup (map f l) -> (forall y, In y l -> f y <> f x) ->
  NoDup (map f (l ++ [x])).
Proof.
  intros Hnd Hfresh. rewrite map_app. cbn.
  apply NoDup_app.
  - exact Hnd.
  - constructor; [intros []|constructor].
  - intros b Hb [<-|[]]. apply in_map_iff in Hb.
    destruct Hb as (y & Hy & Hin). exact (Hfresh y Hin Hy).
Qed.

(** X6.  [register] keeps emails and usernames unique: when no two rows of
    [users] share an email or a username before, none do after, whether it
    succeeds or throws. *)
Theorem register_keeps_identities_unique
    (E : Env) (nowMs : Z) (data : RegisterData.t) (w w' : World)
    (r : result (PublicUser.t * TokenPair.t)) :
  unique_identities w ->
  register E nowMs data w = (r, w') ->
  unique_identities w'.
Proof.
  intros [Hmail Hname] Hrun. rewrite register_eq in Hrun.
  destruct (find _ (users w)) eqn:Hfm in Hrun.
  { injection Hrun as _ <-. now split. }
  destruct (find _ (users w)) eqn:Hfn in Hrun.
  { injection Hrun as _ <-. now split. }
  assert (Hnew : unique_identities
                   (mkWorld (users w ++ [registered_user E nowMs data w])
                      (userSessions w) 0)).
  { split; cbn [users]; apply NoDup_map_snoc; try assumption.
    - intros y Hy. apply String.eqb_neq.
      exact (proj1 (find_none_iff _ _) Hfm y Hy).
    - intros y Hy. apply String.eqb_neq.
      exact (proj1 (find_none_iff _ _) Hfn y Hy). }
  cbv zeta in Hrun.
  destruct (session_expiry E nowMs) in Hrun; injection Hrun as _ <-; exact Hnew.
Qed.

(** X7.  For data that fits the columns of [users], and a refresh lifetime
    that gives the session a valid expiry date, [register] succeeds exactly
    when no row has the email and none has the username; when it throws,
    the error is one of the two 409 conflicts and the world is returned
    as it was. *)
Theorem register_succeeds_or_conflicts
    (E : Env) (nowMs : Z) (data : RegisterData.t) (w : World) (expiresAt : Z) :
  fits_users_columns data ->
  session_expiry E nowMs = Some expiresAt ->
  ((forall u, In u (users w) ->
      User.email u <> RegisterData.email data
      /\ User.username u <> RegisterData.username data)
   <-> exists pu toks w', register E nowMs data w = (Ok (pu, toks), w'))
  /\ (forall err w',
        register E nowMs data w = (Throw err, w') ->
        w' = w
        /\ (err = email_conflict \/ err = username_conflict)
        /\ statusCode_of err = Some 409).
Proof.
  intros _ Httl. rewrite register_eq, Httl. split; [split|].
  - intros Hfree.
    assert (Hm : find (fun u => String.eqb (User.email u) (RegisterData.email data))
                   (users w) = None).
    { apply find_none_iff. intros x Hx. apply String.eqb_neq. now apply Hfree. }
    assert (Hn : find (fun u => String.eqb (User.username u)
                                  (RegisterData.username data)) (users w) = None).
    { apply find_none_iff. intros x Hx. apply String.eqb_neq. now apply Hfree. }
    rewrite Hm, Hn. eauto.
  - intros (pu & toks & w' & Hrun) u Hu.
    destruct (find (fun u => String.eqb (User.email u) (RegisterData.email data))
                (users w)) eqn:Hm; [discriminate|].
    destruct (find (fun u => String.eqb (User.username u)
                               (RegisterData.username data)) (users w)) eqn:Hn;
      [discriminate|].
    split; apply String.eqb_neq.
    + exact (proj1 (find_none_iff _ _) Hm u Hu).
    + exact (proj1 (find_none_iff _ _) Hn u Hu).
  - intros err w' Hrun.
    destruct (find (fun u => String.eqb (User.email u) (RegisterData.email data))
                (users w)).
    { injection Hrun as <- <-. auto. }
    destruct (find (fun u => String.eqb (User.username u)
                               (RegisterData.username data)) (users w)).
    { injection Hrun as <- <-. auto. }
    discriminate.
Qed.

(** A lifetime that parses can still leave the session without a valid
    expiry date: a hundred million days from second 1000 is past the range
    of a [Date]. *)
Example session_expiry_out_of_range :
  parseTimeToSeconds "100000000d" = Some 8640000000000
  /\ valid_date (num_mul (num_add (Some 1000) (parseTimeToSeconds "100000000d"))
                   (Some 1000)) = None.
Proof. vm_compute. split; reflexivity. Qed.


(** X9.  [login] refuses every attempt.  Whatever the tables hold and
    whatever the credentials, it throws [AppError('Invalid credentials',
    401)], answered with the code 40101, and writes nothing: its lookup
    asks for [eq(users.deletedAt, null)], which holds of no row, so neither
    the password nor the MFA code is ever looked at and no session is ever
    created by a login. *)
Theorem login_refuses_every_attempt
    (E : Env) (nowMs : Z) (c : LoginCredentials.t) (info : option SessionInfo.t)
    (w w' : World) (r : result (PublicUser.t * TokenPair.t)) :
  login E nowMs c info w = (r, w') ->
  r = Throw invalid_credentials
  /\ w' = w
  /\ statusCode_of invalid_credentials = Some 401
  /\ getErrorCode (error_message invalid_credentials) 401
     = ERROR_CODES.INVALID_CREDENTIALS.
Proof.
  rewrite login_eq. intros H. injection H as <- <-.
  repeat split; reflexivity.
Qed.

(** ** What the service issues *)


(** X11.  Tokens carry the clock in whole seconds and nothing random: two
    runs of [generateTokens] for the same user within one second of the
    clock return the same token pair, whatever the tables, the entropy and
    the device data. *)
Theorem generateTokens_within_a_second
    (E : Env) (nowMs1 nowMs2 : Z) (user : User.t)
    (i1 i2 : option SessionInfo.t) (w1 w2 w1' w2' : World)
    (t1 t2 : TokenPair.t) :
  generateTokens E nowMs1 user i1 w1 = (Ok t1, w1') ->
  generateTokens E nowMs2 user i2 w2 = (Ok t2, w2') ->
  nowMs1 / 1000 = nowMs2 / 1000 ->
  t1 = t2.
Proof.
  intros H1 H2 Hsec.
  apply generateTokens_ok in H1. destruct H1 as (x1 & _ & -> & _).
  apply generateTokens_ok in H2. destruct H2 as (x2 & _ & -> & _).
  unfold issued_pair, accessPayload, refreshPayload. now rewrite Hsec.
Qed.

(** ** Refreshing *)

(** X13.  Every failure of [refreshToken] reaches the caller as
    [AppError('Invalid refresh token', 401)] - a token that does not
    verify, no matching session, an expired session, a missing account
    (the 404 is swallowed) - and none writes to a table. *)
Theorem refreshToken_fails_uniformly
    (E : Env) (nowMs : Z) (token : jwt) (w w' : World) (err : Exn) :
  refreshToken E nowMs token w = (Throw err, w') ->
  err = invalid_refresh_token
  /\ statusCode_of err = Some 401
  /\ same_tables w w'.
Proof.
  intros H. destruct (refreshToken_failure E nowMs token w err w' H) as [-> Hs].
  repeat split; apply Hs.
Qed.

Lemma map_rotate_expiresAt E nowMs user w session l :
  map Session.expiresAt (map (rotate E nowMs user w session) l)
  = map Session.expiresAt l.
Proof.
  rewrite map_map. apply map_ext. intros s. unfold rotate.
  destruct (String.eqb (Session.id s) (Session.id session)); reflexivity.
Qed.

Lemma map_rotate_owner E nowMs user w session l :
  map (fun s => (Session.id s, Session.userId s))
      (map (rotate E nowMs user w session) l)
  = map (fun s => (Session.id s, Session.userId s)) l.
Proof.
  rewrite map_map. apply map_ext. intros s. unfold rotate.
  destruct (String.eqb (Session.id s) (Session.id session)); reflexivity.
Qed.

(** X14.  A successful [refreshToken] leaves [users] alone, keeps every
    session row in place with its id, its owner and its [expiresAt], and
    appends one more row for the new pair: the table grows by one at each
    refresh, and the session that was matched still expires when it did. *)
Theorem refreshToken_appends_and_keeps_expiry
    (E : Env) (nowMs : Z) (token : jwt) (w w' : World) (toks : TokenPair.t) :
  refreshToken E nowMs token w = (Ok toks, w') ->
  users w' = users w
  /\ length (userSessions w') = S (length (userSessions w))
  /\ exists added,
       map Session.expiresAt (userSessions w')
       = (map Session.expiresAt (userSessions w) ++ [Session.expiresAt added])%list
       /\ map (fun s => (Session.id s, Session.userId s)) (userSessions w')
          = (map (fun s => (Session.id s, Session.userId s)) (userSessions w)
             ++ [(Session.id added, Session.userId added)])%list.
Proof.
  intros H. apply refreshToken_success in H.
  destruct H as (payload & session & user & ttl & Hv & Hs & Hlive & Hu & -> & ->).
  cbn [users userSessions]. split; [reflexivity|]. split.
  - rewrite length_map, length_app. cbn. lia.
  - exists (issued_session E nowMs user None ttl (drawn 1 w)).
    rewrite map_rotate_expiresAt, map_rotate_owner, !map_app. cbn [map].
    split; reflexivity.
Qed.

(** ** Verifying and logging out *)

(** X15.  [verifyToken] writes to no table, and whatever goes wrong the
    caller gets an [AppError] with status 401: ['Invalid token'] when
    [jwt.verify] rejects the token, ['Token expired or invalid'] when the
    session is missing or expired. *)
Theorem verifyToken_reads_only_and_fails_with_401
    (E : Env) (nowMs : Z) (token : jwt) (w w' : World) (r : result JWTPayload.t) :
  verifyToken E nowMs token w = (r, w') ->
  same_tables w w'
  /\ forall err, r = Throw err ->
       statusCode_of err = Some 401
       /\ (err = invalid_token
           <-> exists e, jwt_verify E token (Config.secret (config E)) nowMs
                         = Throw e)
       /\ (err = session_invalid
           <-> exists payload, jwt_verify E token (Config.secret (config E)) nowMs
                               = Ok payload).
Proof.
  rewrite verifyToken_eq.
  destruct (jwt_verify E token (Config.secret (config E)) nowMs) as [payload|e0].
  - intros H. injection H as <- <-. split; [split; reflexivity|].
    intros err Herr.
    assert (Herr' : err = session_invalid).
    { destruct (session_by_token w _ _) as [s|].
      - destruct (Session.expiresAt s <? nowMs); [|discriminate].
        now injection Herr as <-.
      - now injection Herr as <-. }
    subst err. split; [reflexivity|]. split.
    + split; [discriminate|]. intros (e & He). discriminate.
    + split; eauto.
  - intros H. injection H as <- <-. split; [split; reflexivity|].
    intros err Herr. injection Herr as <-. split; [reflexivity|]. split.
    + split; eauto.
    + split; [discriminate|]. intros (p & Hp). discriminate.
Qed.

(** X16.  What [verifyToken] returns is vouched for: the token carries
    these claims under a signature made with the access secret, its [exp]
    is ahead of the clock, and a session row of the subject that has not
    expired stores the digest computed for the token. *)
Theorem verifyToken_sound
    (E : Env) (nowMs : Z) (token : jwt) (w w' : World) (payload : JWTPayload.t) :
  verifyToken E nowMs token w = (Ok payload, w') ->
  token = jwt_sign E payload (Config.secret (config E))
  /\ (exists e, JWTPayload.exp payload = Some e /\ nowMs / 1000 < e)
  /\ exists s,
       In s (userSessions w)
       /\ Session.userId s = JWTPayload.sub payload
       /\ Session.tokenHash s = next_digest E w token
       /\ nowMs <= Session.expiresAt s.
Proof.
  rewrite verifyToken_eq.
  destruct (jwt_verify E token (Config.secret (config E)) nowMs) as [p|e0] eqn:Hv;
    [|discriminate].
  destruct (session_by_token w _ _) as [s|] eqn:Hs; [|discriminate].
  destruct (Session.expiresAt s <? nowMs) eqn:Hexp; [discriminate|].
  intros H. injection H as <- _.
  apply jwt_verify_ok in Hv. destruct Hv as (e & -> & He & Hlt).
  split; [reflexivity|]. split; [eauto|].
  unfold session_by_token in Hs. apply find_some in Hs. destruct Hs as [Hin Hp].
  apply andb_prop in Hp. destruct Hp as [Hu Ht].
  apply String.eqb_eq in Hu. apply String.eqb_eq in Ht. apply Z.ltb_ge in Hexp.
  exists s. auto.
Qed.

(** X12.  Where every digest gets a salt of its own, the service accepts
    no token at all.  In every world reached from the empty database by
    calls of the service, [verifyToken] throws a 401 for every token and
    [refreshToken] throws [AppError('Invalid refresh token', 401)] for
    every token: both look a session up by a digest computed anew, which
    is none of the digests stored. *)
Theorem no_token_is_accepted (E : Env) (w : World) :
  digests_salted E ->
  reachable E w ->
  forall (nowMs : Z) (token : jwt),
    (exists err,
        fst (verifyToken E nowMs token w) = Throw err
        /\ statusCode_of err = Some 401)
    /\ fst (refreshToken E nowMs token w) = Throw invalid_refresh_token.
Proof.
  intros Hsalt Hreach nowMs token.
  pose proof (reachable_digests_drawn E w Hreach) as Hd. split.
  - rewrite (verifyToken_salted E nowMs token w Hsalt Hd).
    destruct (jwt_verify E token _ nowMs); eexists; split; reflexivity.
  - rewrite (refreshToken_salted E nowMs token w Hsalt Hd).
    destruct (jwt_verify E token _ nowMs); reflexivity.
Qed.

Lemma filter_idempotent {A} (p : A -> bool) (l : list A) :
  filter p (filter p l) = filter p l.
Proof.
  induction l as [|a l IH]; [reflexivity|].
  cbn. destruct (p a) eqn:Ha; [|exact IH]. cbn. now rewrite Ha, IH.
Qed.

Lemma filter_all {A} (p : A -> bool) (l : list A) :
  (forall x, In x l -> p x = true) -> filter p l = l.
Proof.
  induction l as [|a l IH]; intros H; [reflexivity|].
  cbn. rewrite (H a (or_introl eq_refl)). f_equal. apply IH.
  intros x Hx. apply H. now right.
Qed.

(** X18.  Logging out twice is logging out once, and logging out a digest
    that no session row of the user carries changes nothing. *)
Theorem logout_idempotent (userId tokenHash : string) (w : World) :
  snd (logout userId tokenHash (snd (logout userId tokenHash w)))
  = snd (logout userId tokenHash w)
  /\ (session_by_token w userId tokenHash = None ->
      snd (logout userId tokenHash w) = w).
Proof.
  unfold logout. run. cbn [snd users userSessions entropy]. split.
  - now rewrite filter_idempotent.
  - intros Hnone. unfold session_by_token in Hnone.
    rewrite filter_all; [now destruct w|].
    intros s Hs. now rewrite (proj1 (find_none_iff _ _) Hnone s Hs).
Qed.

(** ** The authentication middlewares *)

Lemma extract_token_bearer (authHeader token : string) :
  extractTokenFromHeader authHeader = Some token ->
  authHeader = ("Bearer " ++ token)%string.
Proof.
  unfold extractTokenFromHeader. intros H.
  now apply (extractSchemeToken_iff "Bearer" authHeader token eq_refl) in H.
Qed.

(** X19.  [authMiddleware] writes to no table and has two outcomes only.
    Either it answers 401 with code 40101; or it calls [next()] with
    [req.user] set, and then the header was [Bearer] and a non-empty token,
    [verifyToken] accepted that token, and [req.user] is the row of [users]
    whose id is the subject of the claims. *)
Theorem authMiddleware_outcomes
    (E : Env) (jwt_read : string -> jwt) (nowMs : Z)
    (authorization : option string) (w w' : World) (r : result Outcome) :
  authMiddleware E jwt_read nowMs authorization w = (r, w') ->
  same_tables w w'
  /\ ((exists response,
         r = Ok (Respond response)
         /\ Response.status response = 401
         /\ ErrorBody.code (Response.body response) = 40101)
      \/ (exists token payload user,
            r = Ok (Next (Some (requestUser user)))
            /\ authorization = Some ("Bearer " ++ token)%string
            /\ token <> EmptyString
            /\ fst (verifyToken E nowMs (jwt_read token) w) = Ok payload
            /\ In user (users w)
            /\ User.id user = JWTPayload.sub payload)).
Proof.
  unfold authMiddleware. run.
  destruct authorization as [authHeader|].
  2:{ intros H. injection H as <- <-. split; [split; reflexivity|].
      left. eexists. split; [reflexivity|]. split; reflexivity. }
  destruct (String.eqb authHeader "").
  { intros H. injection H as <- <-. split; [split; reflexivity|].
    left. eexists. split; [reflexivity|]. split; reflexivity. }
  destruct (extractTokenFromHeader authHeader) as [token|] eqn:Hx; cbn [falsy].
  2:{ intros H. injection H as <- <-. split; [split; reflexivity|].
      left. eexists. split; [reflexivity|]. split; reflexivity. }
  destruct (String.eqb token "") eqn:Hne.
  { intros H. injection H as <- <-. split; [split; reflexivity|].
    left. eexists. split; [reflexivity|]. split; reflexivity. }
  apply extract_token_bearer in Hx. apply String.eqb_neq in Hne.
  rewrite verifyToken_eq.
  destruct (jwt_verify E (jwt_read token) (Config.secret (config E)) nowMs)
    as [payload|e0] eqn:Hv.
  2:{ intros H. injection H as <- <-. split; [split; reflexivity|].
      left. eexists. split; [reflexivity|]. split; reflexivity. }
  destruct (session_by_token w _ _) as [s|] eqn:Hs.
  2:{ intros H. injection H as <- <-. split; [split; reflexivity|].
      left. eexists. split; [reflexivity|]. split; reflexivity. }
  destruct (Session.expiresAt s <? nowMs) eqn:Hexp.
  { intros H. injection H as <- <-. split; [split; reflexivity|].
    left. eexists. split; [reflexivity|]. split; reflexivity. }
  cbn [users userSessions entropy drawn].
  destruct (find _ (users w)) as [user|] eqn:Hu.
  2:{ intros H. injection H as <- <-. split; [split; reflexivity|].
      left. eexists. split; [reflexivity|]. split; reflexivity. }
  intros H. injection H as <- <-. split; [split; reflexivity|].
  right. exists token, payload, user.
  apply find_some in Hu. destruct Hu as [Hin Hid]. apply String.eqb_eq in Hid.
  rewrite verifyToken_eq, Hv, Hs, Hexp, Hx.
  repeat split; auto.
Qed.

(** X20.  [optionalAuthMiddleware] never answers: it always calls
    [next()], with [req.user] set exactly when [authMiddleware] would have
    set it on the same request, and it leaves the world as [authMiddleware]
    does. *)
Theorem optionalAuthMiddleware_agrees
    (E : Env) (jwt_read : string -> jwt) (nowMs : Z)
    (authorization : option string) (w : World) :
  optionalAuthMiddleware E jwt_read nowMs authorization w
  = (Ok (Next (match fst (authMiddleware E jwt_read nowMs authorization w) with
               | Ok (Next user) => user
               | _ => None
               end)),
     snd (authMiddleware E jwt_read nowMs authorization w)).
Proof.
  unfold optionalAuthMiddleware, authMiddleware. run.
  destruct authorization as [authHeader|]; [|reflexivity].
  destruct (String.eqb authHeader ""); [reflexivity|].
  destruct (extractTokenFromHeader authHeader) as [token|]; cbn [falsy];
    [|reflexivity].
  destruct (String.eqb token ""); [reflexivity|].
  destruct (verifyToken E nowMs (jwt_read token) w) as [[payload|e0] w1];
    [|reflexivity].
  destruct (find _ (users w1)); reflexivity.
Qed.

(** X21.  [botAuthMiddleware] lets no request through: a header that is
    [Bot], one space and a non-empty token without a space is answered
    501, every other request 401. *)
Theorem botAuthMiddleware_never_passes (authorization : option string) :
  (Response.status (botAuthMiddleware authorization) = 501
   <-> exists token,
         authorization = Some ("Bot " ++ token)%string
         /\ token <> EmptyString /\ has_char " " token = false)
  /\ (Response.status (botAuthMiddleware authorization) = 401
      \/ Response.status (botAuthMiddleware authorization) = 501).
Proof.
  unfold botAuthMiddleware, extractBotTokenFromHeader.
  destruct authorization as [authHeader|].
  2:{ cbn. split; [|now left]. split; [discriminate|].
      intros (t & H & _). discriminate. }
  destruct (String.eqb authHeader "") eqn:He.
  { apply String.eqb_eq in He. subst. cbn. split; [|now left].
    split; [discriminate|]. intros (t & H & _). discriminate. }
  destruct (extractSchemeToken "Bot" authHeader) as [token|] eqn:Hx; cbn [falsy].
  - apply (extractSchemeToken_iff "Bot" authHeader token eq_refl) in Hx.
    destruct Hx as [-> Hsp].
    destruct (String.eqb token "") eqn:Ht; cbn.
    + split; [|now left]. split; [discriminate|].
      intros (t & H & Hne & _). injection H as <-.
      apply String.eqb_eq in Ht. contradiction.
    + split; [|now right]. split; [|reflexivity].
      intros _. exists token. apply String.eqb_neq in Ht. auto.
  - cbn. split; [|now left]. split; [discriminate|].
    intros (t & Heq & _ & Hsp). injection Heq as ->.
    assert (Hsome : extractSchemeToken "Bot" ("Bot " ++ t) = Some t)
      by now apply (extractSchemeToken_iff "Bot" _ t eq_refl).
    assert (Habs : Some t = None) by (rewrite <- Hsome; exact Hx).
    discriminate Habs.
Qed.

(** ** Error responses *)

(** X22.  [getErrorCode] never gives [TOKEN_INVALID], [MFA_REQUIRED],
    [MFA_INVALID] or [EMAIL_TAKEN]: whatever the message and the status,
    these four codes of [ERROR_CODES] are not reachable. *)
Theorem getErrorCode_unreachable_codes (message : string) (statusCode : Z) :
  getErrorCode message statusCode <> ERROR_CODES.TOKEN_INVALID
  /\ getErrorCode message statusCode <> ERROR_CODES.MFA_REQUIRED
  /\ getErrorCode message statusCode <> ERROR_CODES.MFA_INVALID
  /\ getErrorCode message statusCode <> ERROR_CODES.EMAIL_TAKEN.
Proof.
  unfold getErrorCode.
  repeat match goal with
         | |- context [if ?b then _ else _] => destruct b
         end;
    unfold ERROR_CODES.INVALID_CREDENTIALS, ERROR_CODES.TOKEN_EXPIRED,
      ERROR_CODES.USER_NOT_FOUND, ERROR_CODES.SERVER_NOT_FOUND,
      ERROR_CODES.CHANNEL_NOT_FOUND, ERROR_CODES.USER_ALREADY_EXISTS,
      ERROR_CODES.USERNAME_TAKEN, ERROR_CODES.RATE_LIMIT_EXCEEDED,
      ERROR_CODES.TOKEN_INVALID, ERROR_CODES.MFA_REQUIRED,
      ERROR_CODES.MFA_INVALID, ERROR_CODES.EMAIL_TAKEN;
    repeat split; lia.
Qed.

(** X23.  The body [createErrorResponse] makes of what the service throws:
    every [AppError] of [login], every error of [refreshToken] and of
    [verifyToken] gets the code 40101, and the two conflicts of [register]
    get 40901 and 40902. *)
Theorem service_error_codes
    (E : Env) (nowMs : Z) (requestId : option string) (w w' : World) (err : Exn) :
  (forall c info,
      login E nowMs c info w = (Throw err, w') ->
      isOperationalError err = true ->
      ErrorBody.code (createErrorResponse err requestId) = 40101)
  /\ (forall token,
        refreshToken E nowMs token w = (Throw err, w') ->
        ErrorBody.code (createErrorResponse err requestId) = 40101)
  /\ (forall token,
        verifyToken E nowMs token w = (Throw err, w') ->
        ErrorBody.code (createErrorResponse err requestId) = 40101)
  /\ (forall data,
        register E nowMs data w = (Throw err, w') ->
        isOperationalError err = true ->
        (err = email_conflict
         /\ ErrorBody.code (createErrorResponse err requestId) = 40901)
        \/ (err = username_conflict
            /\ ErrorBody.code (createErrorResponse err requestId) = 40902)).
Proof.
  split; [|split; [|split]].
  - intros c info. rewrite login_eq. intros H _. now injection H as <- _.
  - intros token H. apply refreshToken_failure in H. destruct H as [-> _].
    reflexivity.
  - intros token. rewrite verifyToken_eq.
    destruct (jwt_verify E token _ nowMs) as [payload|e0].
    + destruct (session_by_token w _ _) as [s|].
      * destruct (Session.expiresAt s <? nowMs); [|discriminate].
        intros H. now injection H as <- _.
      * intros H. now injection H as <- _.
    + intros H. now injection H as <- _.
  - intros data. rewrite register_eq.
    destruct (find _ (users w)).
    { intros H _. injection H as <- _. left. split; reflexivity. }
    destruct (find _ (users w)).
    { intros H _. injection H as <- _. right. split; reflexivity. }
    cbv zeta. destruct (session_expiry E nowMs); [discriminate|].
    intros H Hop. injection H as <- _. discriminate Hop.
Qed.

(** X24.  [errorHandler] always returns the request id it drew.  An
    operational [AppError] is answered with its own status, its message
    and its details and the code [getErrorCode] gives it, in production as
    elsewhere.  Every other error, an [AppError] that is not operational
    included, is answered with status 500, code 50001 and the fixed
    message: without details in production, and with the name and the
    message of the error as details otherwise. *)
Theorem errorHandler_response
    (isProduction : bool) (requestId : string) (error : Exn) :
  ErrorBody.requestId (Response.body (errorHandler isProduction requestId error))
    = Some requestId
  /\ (forall message statusCode details,
        error = AppError message statusCode details true ->
        errorHandler isProduction requestId error
        = Response.mk statusCode
            (ErrorBody.mk (getErrorCode message statusCode) message
               (details_of details) (Some requestId)))
  /\ (isOperationalError error = false ->
        errorHandler isProduction requestId error
        = Response.mk 500
            (ErrorBody.mk 50001 "Internal server error"
               (if isProduction then DetailsNone
                else DetailsError (error_name error) (error_message error))
               (Some requestId))).
Proof.
  unfold errorHandler, handleProgrammingError.
  split; [|split].
  - destruct error as [m s d [|]|m|m|m]; destruct isProduction; reflexivity.
  - intros message statusCode details ->. reflexivity.
  - intros Hop. rewrite Hop. destruct isProduction; reflexivity.
Qed.

(** X25.  [handleJWTError] answers every error with a 401; the body
    [createErrorResponse] makes of it has the code 40102 for a
    [TokenExpiredError] and 40101 for everything else, so that an expired
    token is the one case a client can tell apart. *)
Theorem handleJWTError_codes (error : Exn) (requestId : option string) :
  statusCode_of (handleJWTError error) = Some 401
  /\ ErrorBody.code (createErrorResponse (handleJWTError error) requestId)
     = if String.eqb (error_name error) "TokenExpiredError" then 40102 else 40101.
Proof.
  destruct error as [m s d op|m|m|m]; split; reflexivity.
Qed.

(** ** These properties at work on the reference environment *)


(** Fifteen minutes written as 900 seconds are read as 90. *)
Lemma parseTimeToSeconds_drops_last_character_demo :
  parseTimeToSeconds "900" = Some 90.
Proof.
  apply (parseTimeToSeconds_drops_last_character "90" "0");
    [reflexivity|discriminate|reflexivity|discriminate..].
Defined.

Lemma parseTimeToSeconds_short_demo : parseTimeToSeconds "7" = None.
Proof. apply parseTimeToSeconds_short_is_NaN. cbn. lia. Defined.

Lemma world_alice_unique : unique_identities world_alice.
Proof.
  split; cbn; (constructor; [intros []|constructor]).
Qed.

(** Bobby registers after Alice. *)
Lemma register_keeps_identities_unique_demo :
  unique_identities (snd (register demo_env 2000000 bobby world_alice)).
Proof.
  apply (register_keeps_identities_unique demo_env 2000000 bobby world_alice _
           (fst (register demo_env 2000000 bobby world_alice))
           world_alice_unique).
  now destruct (register demo_env 2000000 bobby world_alice).
Defined.

Lemma dave_fits_users_columns : fits_users_columns dave.
Proof. repeat split; cbn; lia. Qed.

(** Dave's email and username are free: he can register after Alice. *)
Lemma register_succeeds_or_conflicts_demo :
  exists pu toks w',
    register demo_env 2000000 dave world_alice = (Ok (pu, toks), w').
Proof.
  apply (proj1 (register_succeeds_or_conflicts demo_env 2000000 dave world_alice
                  606800000 dave_fits_users_columns eq_refl)).
  intros u [<-|[]]. split; apply String.eqb_neq; reflexivity.
Defined.


(** Alice, registered a moment ago, is refused with her own password. *)
Lemma login_refuses_every_attempt_demo :
  fst (login salted_env 1000500 (alice_credentials None) None world_alice_salted)
    = Throw invalid_credentials
  /\ snd (login salted_env 1000500 (alice_credentials None) None world_alice_salted)
     = world_alice_salted
  /\ statusCode_of invalid_credentials = Some 401
  /\ getErrorCode (error_message invalid_credentials) 401
     = ERROR_CODES.INVALID_CREDENTIALS.
Proof.
  apply (login_refuses_every_attempt salted_env 1000500 (alice_credentials None)
           None world_alice_salted).
  now destruct (login salted_env 1000500 (alice_credentials None) None
                  world_alice_salted).
Defined.

Lemma alice_generateTokens_run :
  generateTokens demo_env 1000000
    (registered_user demo_env 1000000 alice empty_world) None
    (mkWorld (users world_alice) [] 2)
  = (Ok alice_tokens, world_alice).
Proof. vm_compute. reflexivity. Qed.


Lemma alice_generateTokens_again_run :
  generateTokens demo_env 1000700
    (registered_user demo_env 1000000 alice empty_world) None world_alice
  = (Ok alice_tokens,
     snd (generateTokens demo_env 1000700
            (registered_user demo_env 1000000 alice empty_world) None world_alice)).
Proof. vm_compute. reflexivity. Qed.

(** A second pair for Alice within second 1000 is the pair she has. *)
Lemma generateTokens_within_a_second_demo : alice_tokens = alice_tokens.
Proof.
  apply (generateTokens_within_a_second demo_env 1000000 1000700
           (registered_user demo_env 1000000 alice empty_world) None None
           (mkWorld (users world_alice) [] 2) world_alice world_alice _
           alice_tokens alice_tokens
           alice_generateTokens_run alice_generateTokens_again_run).
  reflexivity.
Defined.

Lemma world_alice_salted_reachable : reachable salted_env world_alice_salted.
Proof.
  apply (reachable_step salted_env empty_world world_alice_salted
           (reachable_empty salted_env)).
  exact (step_register salted_env 1000000 alice empty_world).
Qed.

(** After Alice's registration neither of her tokens is accepted. *)
Lemma no_token_is_accepted_demo :
  (exists err,
      fst (verifyToken salted_env 1000500 (TokenPair.accessToken alice_tokens)
             world_alice_salted) = Throw err
      /\ statusCode_of err = Some 401)
  /\ fst (refreshToken salted_env 1000500 (TokenPair.accessToken alice_tokens)
            world_alice_salted) = Throw invalid_refresh_token.
Proof.
  exact (no_token_is_accepted salted_env world_alice_salted salted_digests_salted
           world_alice_salted_reachable 1000500
           (TokenPair.accessToken alice_tokens)).
Defined.

(** Alice's access token is no refresh token. *)
Lemma refreshToken_fails_uniformly_demo :
  invalid_refresh_token = invalid_refresh_token
  /\ statusCode_of invalid_refresh_token = Some 401
  /\ same_tables world_alice world_alice.
Proof.
  apply (refreshToken_fails_uniformly demo_env 1000500
           (TokenPair.accessToken alice_tokens) world_alice world_alice).
  vm_compute. reflexivity.
Defined.

(** Alice's refresh at second 1005: two session rows where there was one. *)
Lemma refreshToken_appends_demo :
  length (userSessions world_refreshed) = 2%nat.
Proof.
  exact (proj1 (proj2 (refreshToken_appends_and_keeps_expiry demo_env 1005000
                         (TokenPair.refreshToken alice_tokens) world_alice
                         world_refreshed alice_new_tokens alice_refresh_run))).
Defined.

Lemma alice_verify_run :
  verifyToken demo_env 1000500 (TokenPair.accessToken alice_tokens) world_alice
  = (Ok (accessPayload demo_env 1000000
           (registered_user demo_env 1000000 alice empty_world)),
     drawn 1 world_alice).
Proof. vm_compute. reflexivity. Qed.

Lemma verifyToken_reads_only_demo :
  same_tables world_alice (drawn 1 world_alice).
Proof.
  exact (proj1 (verifyToken_reads_only_and_fails_with_401 demo_env 1000500
                  (TokenPair.accessToken alice_tokens) world_alice _ _
                  alice_verify_run)).
Defined.

Lemma verifyToken_sound_demo :
  exists s,
    In s (userSessions world_alice)
    /\ Session.userId s = "id-B"
    /\ Session.tokenHash s
       = next_digest demo_env world_alice (TokenPair.accessToken alice_tokens)
    /\ 1000500 <= Session.expiresAt s.
Proof.
  exact (proj2 (proj2 (verifyToken_sound demo_env 1000500
                         (TokenPair.accessToken alice_tokens) world_alice _ _
                         alice_verify_run))).
Defined.

(** Alice's request with her access token in the header. *)
Lemma alice_request_run :
  authMiddleware demo_env demo_read 1000500 (Some alice_bearer) world_alice
  = (Ok (Next (Some (requestUser
                       (registered_user demo_env 1000000 alice empty_world)))),
     drawn 1 world_alice).
Proof. vm_compute. reflexivity. Qed.

Lemma authMiddleware_demo :
  same_tables world_alice (drawn 1 world_alice)
  /\ ((exists response,
         Ok (Next (Some (requestUser
                           (registered_user demo_env 1000000 alice empty_world))))
         = Ok (Respond response)
         /\ Response.status response = 401
         /\ ErrorBody.code (Response.body response) = 40101)
      \/ (exists token payload user,
            Ok (Next (Some (requestUser
                              (registered_user demo_env 1000000 alice empty_world))))
            = Ok (Next (Some (requestUser user)))
            /\ Some alice_bearer = Some ("Bearer " ++ token)%string
            /\ token <> EmptyString
            /\ fst (verifyToken demo_env 1000500 (demo_read token) world_alice)
               = Ok payload
            /\ In user (users world_alice)
            /\ User.id user = JWTPayload.sub payload)).
Proof.
  exact (authMiddleware_outcomes demo_env demo_read 1000500 (Some alice_bearer)
           world_alice _ _ alice_request_run).
Defined.
